(** * build_manpages: the manual-page specification parser, the settings
    resolver and the generation dispatcher

    A shallow embedding of [src/build_manpages/build_manpages.py].

    Conventions of the embedding:
    - a Python [str] is a Rocq [string]; each character stands for one
      code point below 256;
    - a page record ([manpagedata], a Python [dict] from field names to
      values) is a [gmap string value]; the parsed mapping
      ([manpages_data]), whose iteration order the dispatcher depends on,
      is an insertion-ordered association list, as a Python [dict] is;
    - a raised exception is the [Raise] result of an error monad; the
      dispatcher, which prints and calls collaborators, runs in a
      state-and-error monad over an abstract world and a trace of events;
    - [assert] statements are checked (the interpreter does not run with
      [-O]);
    - what the module imports from elsewhere ([MANPAGE_DATA_ATTRS],
      [get_manpage_data_from_distribution], [get_parser], [Manpage],
      [write_to_filename], [ManPageWriter], [tomllib]) is a parameter of
      the definitions that use it. *)

From Stdlib Require Import Ascii.
From stdpp Require Import gmap strings list fin_maps.

(** ** Exceptions and the error monad *)

(** The exceptions by class. [UnpackError got] is the [ValueError] of an
    unpacking into two names that gets [got] values; [OSError] stands for
    its subclasses too ([FileNotFoundError], [PermissionError]). *)
Inductive exn : Type :=
  | AssertionError
  | ValueError (msg : string)
  | UnpackError (got : nat)
  | KeyError (key : string)
  | TypeError (msg : string)
  | AttributeError (msg : string)
  | OSError (msg : string)
  | DistutilsOptionError (msg : string)
  | CollaboratorError (msg : string).

Inductive result (A : Type) : Type :=
  | Ok (a : A)
  | Raise (e : exn).

Arguments Ok {A} a.
Arguments Raise {A} e.

#[global] Instance result_ret : MRet result := @Ok.
#[global] Instance result_bind : MBind result := fun A B f m =>
  match m with
  | Ok a => f a
  | Raise e => Raise e
  end.

Definition is_ok {A} (r : result A) : bool :=
  match r with Ok _ => true | Raise _ => false end.

(** [assert(c)]. *)
Definition py_assert (c : bool) : result unit :=
  if c then Ok tt else Raise AssertionError.

(** ** Python string methods used by the module *)

Module Str.

(** The line feed, and the one-character string ['\n']. *)
Definition LF : ascii := "010"%char.
Definition NL : string := String LF "".

(** [str.isspace] for one character, on the code points below 256:
    TAB, LF, VT, FF, CR, FS, GS, RS, US, SPACE, NEL, NBSP. *)
Definition isspace (c : ascii) : bool :=
  match c with
  | "009" | "010" | "011" | "012" | "013"
  | "028" | "029" | "030" | "031" | " "
  | "133" | "160" => true
  | _ => false
  end%char.

Fixpoint lstrip (s : string) : string :=
  match s with
  | "" => ""
  | String c s' => if isspace c then lstrip s' else s
  end.

Fixpoint rstrip (s : string) : string :=
  match s with
  | "" => ""
  | String c s' =>
      match rstrip s' with
      | "" => if isspace c then "" else String c ""
      | r => String c r
      end
  end.

(** [s.strip()] *)
Definition strip (s : string) : string := rstrip (lstrip s).

(** [s.split(sep)] for a one-character separator: a cut at every
    occurrence, so the result has one more piece than [s] has
    separators. *)
Fixpoint split (sep : ascii) (s : string) : list string :=
  match s with
  | "" => [""]
  | String c s' =>
      if Ascii.eqb c sep then "" :: split sep s'
      else match split sep s' with
           | [] => [String c ""]
           | piece :: pieces => String c piece :: pieces
           end
  end.

(** [sep.join(l)] *)
Fixpoint join (sep : string) (l : list string) : string :=
  match l with
  | [] => ""
  | [x] => x
  | x :: l' => x +:+ sep +:+ join sep l'
  end.

(** [c in s] for a character. *)
Fixpoint contains (c : ascii) (s : string) : bool :=
  match s with
  | "" => false
  | String c' s' => Ascii.eqb c' c || contains c s'
  end.

(** [s.count(c)] for a character. *)
Fixpoint count (c : ascii) (s : string) : nat :=
  match s with
  | "" => 0
  | String c' s' => (if Ascii.eqb c' c then 1 else 0) + count c s'
  end.

(** [os.path.basename] (POSIX): what follows the last slash. *)
Definition basename (p : string) : string := List.last (split "/" p) "".

End Str.

(** ** Page records *)

(** A field of a page record holds a string, or (for [authors]) a list of
    strings. *)
Inductive value : Type :=
  | VStr (s : string)
  | VList (l : list string).

#[global] Instance value_eq_dec : EqDecision value.
Proof. solve_decision. Defined.

(** Python truthiness of a field value. *)
Definition truthy (v : value) : bool :=
  match v with
  | VStr s => negb (String.eqb s "")
  | VList l => match l with [] => false | _ => true end
  end.

Abbreviation record := (gmap string value).

(** [k in d] *)
Definition has_key (k : string) (d : record) : bool :=
  match d !! k with Some _ => true | None => false end.

(** ** The ordered mapping from output file names to records *)

Module Dict.

Definition t (V : Type) : Type := list (string * V).

Fixpoint get {V} (k : string) (d : t V) : option V :=
  match d with
  | [] => None
  | (k', v) :: d' => if String.eqb k' k then Some v else get k d'
  end.

(** [d[k] = v]: an existing key keeps its place, a new one goes last. *)
Fixpoint set {V} (k : string) (v : V) (d : t V) : t V :=
  match d with
  | [] => [(k, v)]
  | (k', v') :: d' =>
      if String.eqb k' k then (k', v) :: d' else (k', v') :: set k v d'
  end.

Definition keys {V} (d : t V) : list string := d.*1.

End Dict.

(** ** The specification parser *)

(** [oname, ovalue = option.split('=')] *)
Definition unpack_option (option : string) : result (string * string) :=
  match Str.split "=" option with
  | [oname; ovalue] => Ok (oname, ovalue)
  | pieces => Raise (UnpackError (length pieces))
  end.

Definition unknown_option (oname : string) : exn :=
  ValueError ("Unknown manpage configuration option: " +:+ oname).

Section Parser.

(** [MANPAGE_DATA_ATTRS] is imported from [argparse_manpage.manpage],
    outside this module: the allow-list of metadata attributes is a
    parameter of the parser. *)
Variable MANPAGE_DATA_ATTRS : list string.

(** The [authors.append(ovalue)] of the [author] branch, after
    [setdefault]. *)
Definition append_author (manpagedata : record) (ovalue : string)
  : result record :=
  match manpagedata !! "authors" with
  | None => Ok (<["authors" := VList [ovalue]]> manpagedata)
  | Some (VList l) => Ok (<["authors" := VList (l ++ [ovalue])]> manpagedata)
  | Some (VStr _) =>
      Raise (AttributeError "'str' object has no attribute 'append'")
  end.

(** The [if]/[elif] chain on the option name. *)
Definition apply_option (manpagedata : record) (oname ovalue : string)
  : result record :=
  if String.eqb oname "function" || String.eqb oname "object" then
    _ ← py_assert (negb (has_key "objtype" manpagedata));
    Ok (<["objname" := VStr ovalue]>
          (<["objtype" := VStr oname]> manpagedata))
  else if String.eqb oname "pyfile" || String.eqb oname "module" then
    _ ← py_assert (negb (has_key "import_type" manpagedata));
    let manpagedata :=
      <["import_from" := VStr ovalue]>
        (<["import_type" := VStr oname]> manpagedata) in
    if String.eqb oname "pyfile"
    then Ok (<["prog" := VStr (Str.basename ovalue)]> manpagedata)
    else Ok manpagedata
  else if String.eqb oname "format" then
    _ ← py_assert (negb (has_key "format" manpagedata));
    Ok (<[oname := VStr ovalue]> manpagedata)
  else if String.eqb oname "author" then
    append_author manpagedata ovalue
  else if bool_decide (oname ∈ MANPAGE_DATA_ATTRS)
          && negb (String.eqb oname "authors") then
    _ ← py_assert (negb (has_key oname manpagedata));
    Ok (<[oname := VStr ovalue]> manpagedata)
  else
    Raise (unknown_option oname).

(** One round of the inner loop, for a token after the first. *)
Definition parse_option (manpagedata : record) (option : string)
  : result record :=
  '(oname, ovalue) ← unpack_option option;
  apply_option manpagedata oname ovalue.

(** The inner loop over the tokens after the output file name. *)
Fixpoint parse_options (manpagedata : record) (options : list string)
  : result record :=
  match options with
  | [] => Ok manpagedata
  | option :: options' =>
      manpagedata' ← parse_option manpagedata option;
      parse_options manpagedata' options'
  end.

(** The body of the outer loop for one line: the first token is the
    output file, the others are options of a fresh record. ([split] gives
    at least one piece, so the first case is never taken.) *)
Definition parse_spec (spec : string) : result (string * record) :=
  match Str.split ":" spec with
  | [] => Raise (UnpackError 0)
  | outputfile :: options =>
      manpagedata ← parse_options ∅ options;
      Ok (outputfile, manpagedata)
  end.

(** The outer loop, from the mapping built so far. *)
Fixpoint parse_specs (manpages_data : Dict.t record) (specs : list string)
  : result (Dict.t record) :=
  match specs with
  | [] => Ok manpages_data
  | spec :: specs' =>
      '(outputfile, manpagedata) ← parse_spec spec;
      parse_specs (Dict.set outputfile manpagedata manpages_data) specs'
  end.

Definition parse_manpages_spec (string : string) : result (Dict.t record) :=
  parse_specs [] (Str.split Str.LF (Str.strip string)).

End Parser.

(** ** The settings resolver *)

(** A parsed TOML document, as [tomllib] returns it. *)
#[local] Set Warnings "-register-all".
Inductive toml : Type :=
  | TString (s : string)
  | TInteger (n : Z)
  | TBoolean (b : bool)
  | TArray (items : list toml)
  | TTable (entries : list (string * toml)).

(** [obj[key]] for a string key. *)
Definition subscript (obj : toml) (key : string) : result toml :=
  match obj with
  | TTable entries =>
      match Dict.get key entries with
      | Some v => Ok v
      | None => Raise (KeyError key)
      end
  | TString _ => Raise (TypeError "string indices must be integers")
  | TArray _ => Raise (TypeError "list indices must be integers or slices, not str")
  | TInteger _ | TBoolean _ => Raise (TypeError "object is not subscriptable")
  end.

(** The items of a list handed to [str.join], which takes strings only. *)
Fixpoint join_items (items : list toml) : result (list string) :=
  match items with
  | [] => Ok []
  | TString s :: items' => l ← join_items items'; Ok (s :: l)
  | _ :: _ => Raise (TypeError "sequence item: expected str instance")
  end.

Definition DEFAULT_CMD_NAME : string := "build_manpages".

Section Resolver.

(** What [open("pyproject.toml").read()] gives in the current
    directory: the text of the file, or the error raised (no such file,
    no permission). *)
Variable read_pyproject : result string.

(** [tomllib.loads]: the top-level table, or [None] for a
    [TOMLDecodeError]. *)
Variable tomllib_loads : string → option (list (string * toml)).

(** The built-in [str] on a value that is not a string. *)
Variable py_str : toml → string.

Definition get_pyproject_settings : result (option string) :=
  text ← read_pyproject;
  match tomllib_loads text with
  | None => Ok None
  | Some content =>
      let looked_up :=
        tool ← subscript (TTable content) "tool";
        cmd ← subscript tool DEFAULT_CMD_NAME;
        value ← subscript cmd "manpages";
        match value with
        | TArray items => l ← join_items items; Ok (Str.join Str.NL l)
        | TString s => Ok s
        | other => Ok (py_str other)
        end in
      match looked_up with
      | Ok s => Ok (Some s)
      | Raise (KeyError _) => Ok None
      | Raise e => Raise e
      end
  end.

Definition option_required : exn :=
  DistutilsOptionError "'manpages' option is required".

(** The first two statements of [finalize_options]: the text that is
    handed to the parser. [manpages] is [self.manpages]. *)
Definition resolve_manpages (manpages : option string) : result string :=
  chosen ←
    match manpages with
    | Some s => if String.eqb s "" then get_pyproject_settings
                else Ok (Some s)
    | None => get_pyproject_settings
    end;
  match chosen with
  | Some s => if String.eqb s "" then Raise option_required else Ok s
  | None => Raise option_required
  end.

Variable MANPAGE_DATA_ATTRS : list string.

(** [get_manpage_data_from_distribution(self.distribution, data)], of
    [argparse_manpage.manpage]: the record as the call leaves it. *)
Variable get_manpage_data_from_distribution : record → result record.

Fixpoint complete_records (items : Dict.t record) : result (Dict.t record) :=
  match items with
  | [] => Ok []
  | (page, data) :: items' =>
      data' ← get_manpage_data_from_distribution data;
      rest ← complete_records items';
      Ok ((page, data') :: rest)
  end.

(** [finalize_options], returning [self.manpages_data]. *)
Definition finalize_options (manpages : option string)
  : result (Dict.t record) :=
  text ← resolve_manpages manpages;
  manpages_data ← parse_manpages_spec MANPAGE_DATA_ATTRS text;
  complete_records manpages_data.

End Resolver.

(** ** The generation dispatcher *)

(** What the dispatcher does to the outside: lines printed and calls of
    the collaborators, with their arguments. *)
Inductive event : Type :=
  | Print (line : string)
  | CallGetParser (import_type import_from objname objtype : value)
      (prog : option value)
  | CallManpage (format : value) (data : record)
  | CallStr
  | CallWriteToFilename (text page : string)
  | CallManPageWriter (data : record)
  | CallWrite (page : string).

Section Dispatcher.

(** The file system and interpreter state that the collaborators read
    and change. *)
Variable World : Type.

Record state : Type := State { world : World; trace : list event }.

(** A computation that may change the state and may raise. *)
Definition M (A : Type) : Type := state → result A * state.

Definition ret {A} (a : A) : M A := fun s => (Ok a, s).

Definition bind {A B} (m : M A) (f : A → M B) : M B := fun s =>
  match m s with
  | (Ok a, s') => f a s'
  | (Raise e, s') => (Raise e, s')
  end.

Definition raise {A} (e : exn) : M A := fun s => (Raise e, s).

Definition emit (e : event) : M unit := fun s =>
  (Ok tt, State (world s) (trace s ++ [e])).

(** The state after the notice for a page that is there already. *)
Definition noticed (page : string) (s : state) : state :=
  State (world s) (trace s ++ [Print ("using pre-written " +:+ page)]).

(** A call of a collaborator: it is recorded, then it acts on the world. *)
Definition call {A} (e : event) (f : World → result A * World) : M A :=
  fun s =>
    let '(r, w) := f (world s) in (r, State w (trace s ++ [e])).

#[local] Instance M_ret : MRet M := @ret.
#[local] Instance M_bind : MBind M := fun A B f m => bind m f.

(** The collaborators, all outside this module. *)
Variables ParserHandle ManpageObject Writer : Type.
Variable get_parser :
  value → value → value → value → option value →
  World → result ParserHandle * World.
Variable Manpage :
  ParserHandle → value → record → World → result ManpageObject * World.
Variable manpage_str : ManpageObject → World → result string * World.
Variable write_to_filename : string → string → World → result unit * World.
Variable ManPageWriter :
  ParserHandle → record → World → result Writer * World.
Variable writer_write : Writer → string → World → result unit * World.

(** [repr] of a list of strings, for the text of the format error. *)
Variable repr_list : list string → string.

Definition format_value (v : value) : string :=
  match v with
  | VStr s => s
  | VList l => repr_list l
  end.

(** [data[key]] *)
Definition getitem (data : record) (key : string) : M value :=
  match data !! key with
  | Some v => ret v
  | None => raise (KeyError key)
  end.

(** [data.get('manfile')], then its truth value. *)
Definition manfile_truthy (data : record) : bool :=
  match data !! "manfile" with
  | Some v => truthy v
  | None => false
  end.

(** The loop body after the [manfile] test. *)
Definition generate (page : string) (data : record) : M unit :=
  _ ← emit (Print ("generating " +:+ page));
  import_type ← getitem data "import_type";
  import_from ← getitem data "import_from";
  objname ← getitem data "objname";
  objtype ← getitem data "objtype";
  let prog := data !! "prog" in
  parser ← call (CallGetParser import_type import_from objname objtype prog)
              (get_parser import_type import_from objname objtype prog);
  let format := default (VStr "pretty") (data !! "format") in
  if bool_decide (format = VStr "pretty")
     || bool_decide (format = VStr "single-commands-section") then
    manpage ← call (CallManpage format data) (Manpage parser format data);
    text ← call CallStr (manpage_str manpage);
    call (CallWriteToFilename text page) (write_to_filename text page)
  else if bool_decide (format = VStr "old") then
    mw ← call (CallManPageWriter data) (ManPageWriter parser data);
    call (CallWrite page) (writer_write mw page)
  else
    raise (ValueError ("Unknown format: " +:+ format_value format)).

(** [run], on [self.manpages_data.items()]. *)
Fixpoint run (manpages_data : Dict.t record) : M unit :=
  match manpages_data with
  | [] => ret tt
  | (page, data) :: rest =>
      if manfile_truthy data then
        emit (Print ("using pre-written " +:+ page))
      else
        _ ← generate page data;
        run rest
  end.

End Dispatcher.

Arguments State {World} world trace.
Arguments world {World} s.
Arguments trace {World} s.
Arguments noticed {World} page s.

(** * Vocabulary of the properties *)

(** ** Whitespace at the ends of a text *)

(** Whitespace only. *)
Fixpoint all_space (s : string) : bool :=
  match s with
  | "" => true
  | String c s' => Str.isspace c && all_space s'
  end.

(** The first character exists and is not whitespace. *)
Definition starts_solid (s : string) : bool :=
  match s with
  | "" => false
  | String c _ => negb (Str.isspace c)
  end.

(** The last character exists and is not whitespace. *)
Fixpoint ends_solid (s : string) : bool :=
  match s with
  | "" => false
  | String c "" => negb (Str.isspace c)
  | String _ s' => ends_solid s'
  end.

(** ** Lines and their options *)

(** [spec.split(':')[0]], the output file a line declares. *)
Definition outputfile_of (spec : string) : string :=
  hd "" (Str.split ":" spec).

(** [text] has the token [option] as an option: in a line that comes
    after the lines [prev], after the output file and the options [pre]
    of that line. *)
Definition has_option_after (text : string) (prev pre : list string)
    (option : string) : Prop :=
  ∃ spec rest outputfile post,
    Str.split Str.LF (Str.strip text) = prev ++ spec :: rest ∧
    Str.split ":" spec = outputfile :: pre ++ option :: post.

(** The names with a branch of their own. *)
Definition special_names : list string :=
  ["function"; "object"; "pyfile"; "module"; "format"; "author"].

(** The key whose presence makes an option a duplicate, for the options
    that may be given once. *)
Definition exclusive_key (oname : string) : option string :=
  if String.eqb oname "function" || String.eqb oname "object"
  then Some "objtype"
  else if String.eqb oname "pyfile" || String.eqb oname "module"
  then Some "import_type"
  else if String.eqb oname "format" then Some "format"
  else None.

(** The values of the [author] options among the tokens, in order. *)
Fixpoint author_values (options : list string) : list string :=
  match options with
  | [] => []
  | option :: options' =>
      match unpack_option option with
      | Ok (oname, ovalue) =>
          if String.eqb oname "author"
          then ovalue :: author_values options'
          else author_values options'
      | Raise _ => author_values options'
      end
  end.

(** The [authors] field for a list of values: absent when there is
    none. *)
Definition authors_field (l : list string) : option value :=
  match l with
  | [] => None
  | _ => Some (VList l)
  end.

(** ** The spec's words, for comparison with the code *)

(** After the spec's words: the text without its empty lines. *)
Definition remove_empty_lines (text : string) : string :=
  Str.join Str.NL
    (filter (λ line, line ≠ "") (Str.split Str.LF text)).

(** After the spec's words: a token cut at its first separator, the name
    before it and the value after it. *)
Fixpoint before_first (sep : ascii) (s : string) : string :=
  match s with
  | "" => ""
  | String c s' =>
      if Ascii.eqb c sep then "" else String c (before_first sep s')
  end.

Fixpoint after_first (sep : ascii) (s : string) : string :=
  match s with
  | "" => ""
  | String c s' => if Ascii.eqb c sep then s' else after_first sep s'
  end.

Definition spec_split_first (sep : ascii) (s : string) : string * string :=
  (before_first sep s, after_first sep s).

(** ** A world to run the dispatcher in *)

(** A small world for examples: it is the list of the files written so
    far, and every collaborator succeeds. *)
Module Toy.

Definition World : Type := list string.

Definition get_parser (import_type import_from objname objtype : value)
    (prog : option value) (w : World) : result unit * World :=
  (Ok tt, w).

Definition Manpage (parser : unit) (format : value) (data : record)
    (w : World) : result unit * World :=
  (Ok tt, w).

Definition manpage_str (manpage : unit) (w : World)
  : result string * World :=
  (Ok ".TH", w).

Definition write_to_filename (text page : string) (w : World)
  : result unit * World :=
  (Ok tt, w ++ [page]).

Definition ManPageWriter (parser : unit) (data : record) (w : World)
  : result unit * World :=
  (Ok tt, w).

Definition writer_write (mw : unit) (page : string) (w : World)
  : result unit * World :=
  (Ok tt, w ++ [page]).

Definition repr_list (l : list string) : string := Str.join ", " l.

Definition run : Dict.t record → M World unit :=
  run World unit unit unit get_parser Manpage manpage_str
    write_to_filename ManPageWriter writer_write repr_list.

End Toy.

(** ** Shapes of the parsed records *)

(** The fields that the branches of the parser write by name. *)
Definition parser_fields : list string :=
  ["objtype"; "objname"; "import_type"; "import_from"; "prog"; "format";
   "authors"].

(** [authors] holds a list with an element, every other field a string. *)
Definition field_shape_ok (k : string) (v : value) : bool :=
  match v with
  | VStr _ => negb (String.eqb k "authors")
  | VList l => String.eqb k "authors" && negb (bool_decide (l = []))
  end.

(** A record whose fields have these shapes, under names that the
    parser writes or the allow-list holds. *)
Definition record_ok (attrs : list string) (d : record) : Prop :=
  map_Forall
    (λ k v, field_shape_ok k v = true ∧ (k ∈ parser_fields ∨ k ∈ attrs)) d.

(** The exceptions that the parser raises by itself: the failed assertion
    of a duplicate, the unpacking of a token that has not one equals
    sign, the unknown option. *)
Definition parse_error (e : exn) : Prop :=
  match e with
  | AssertionError => True
  | UnpackError got => got ≠ 2
  | ValueError msg =>
      ∃ oname, msg = "Unknown manpage configuration option: " +:+ oname
  | _ => False
  end.

(** The fields that a later option of the line may write again: the
    [function], [object], [pyfile] and [module] branches assign them
    without a test of their own. *)
Definition rewritable_fields : list string :=
  ["objname"; "import_from"; "prog"].

(** ** Installation of the pages *)

(** [os.path.join(a, b)] (POSIX) for two components. *)
Definition path_join (a b : string) : string :=
  match b with
  | String "/" _ => b
  | _ =>
      match a with
      | "" => b
      | _ => if String.eqb (Str.basename a) "" then a +:+ b
             else a +:+ "/" +:+ b
      end
  end.

(** What [config.get(DEFAULT_CMD_NAME, 'manpages')] does after
    [config.read('setup.cfg')]: the value, the [NoSectionError] that the
    caller handles, or another exception of the configuration parser (a
    section without the option, a file that does not parse). *)
Inductive config_lookup : Type :=
  | Found (value : string)
  | NoSectionError
  | ConfigRaise (e : exn).

Inductive install_event : Type :=
  | InstallPrint (line : string)
  | CallExists (path : string)
  | CallMakedirs (path : string)
  | CallCopy (src dst : string).

Section Install.

(** The file system. *)
Variable World : Type.

Record install_state : Type :=
  InstallState { fs : World; log : list install_event }.

Variable config_get : config_lookup.
Variable read_pyproject : result string.
Variable tomllib_loads : string → option (list (string * toml)).
Variable py_str : toml → string.
Variable MANPAGE_DATA_ATTRS : list string.

(** [os.path.exists], [os.makedirs] and [shutil.copy]. *)
Variable path_exists : string → World → bool.
Variable makedirs : string → World → result unit * World.
Variable copy : string → string → World → result unit * World.

Definition not_found : exn :=
  ValueError "'manpage' configuration not found in setup.cfg or pyproject.toml".

(** The first statements of [install_manual_pages], up to the test of
    [spec is None]. *)
Definition find_spec : result string :=
  spec ←
    match config_get with
    | Found value => Ok (Some value)
    | NoSectionError =>
        get_pyproject_settings read_pyproject tomllib_loads py_str
    | ConfigRaise e => Raise e
    end;
  match spec with
  | None => Raise not_found
  | Some value => Ok value
  end.

Definition logged (e : install_event) (w : World) (s : install_state)
  : install_state :=
  InstallState w (log s ++ [e]).

(** The loop over [data.items()]. *)
Fixpoint copy_pages (keys : list string) (mandir : string)
    (s : install_state) : result unit * install_state :=
  match keys with
  | [] => (Ok tt, s)
  | key :: keys' =>
      let s1 := logged (InstallPrint ("installing " +:+ key)) (fs s) s in
      match copy key mandir (fs s1) with
      | (Ok _, w) => copy_pages keys' mandir (logged (CallCopy key mandir) w s1)
      | (Raise e, w) => (Raise e, logged (CallCopy key mandir) w s1)
      end
  end.

Definition install_manual_pages (install_data : string)
    (s : install_state) : result unit * install_state :=
  match find_spec ≫= parse_manpages_spec MANPAGE_DATA_ATTRS with
  | Raise e => (Raise e, s)
  | Ok data =>
      let mandir := path_join install_data "share/man/man1" in
      let s1 := logged (CallExists mandir) (fs s) s in
      if path_exists mandir (fs s) then
        copy_pages (Dict.keys data) mandir s1
      else
        match makedirs mandir (fs s) with
        | (Ok _, w) =>
            copy_pages (Dict.keys data) mandir
              (logged (CallMakedirs mandir) w s1)
        | (Raise e, w) => (Raise e, logged (CallMakedirs mandir) w s1)
        end
  end.

End Install.

Arguments InstallState {World} fs log.
Arguments fs {World} _.
Arguments log {World} _.
Arguments logged {World} e w s.

(** The notice and the copy of each file in turn, as events. *)
Definition copy_events (keys : list string) (mandir : string)
  : list install_event :=
  keys ≫= λ key, [InstallPrint ("installing " +:+ key); CallCopy key mandir].

(** A small file system for examples: the paths that have been made or
    written; a copy fails only for the empty file name. *)
Module ToyInstall.

Definition World : Type := list string.

Definition path_exists (path : string) (w : World) : bool :=
  bool_decide (path ∈ w).

Definition makedirs (path : string) (w : World) : result unit * World :=
  (Ok tt, w ++ [path]).

Definition copy (src dst : string) (w : World) : result unit * World :=
  if String.eqb src ""
  then (Raise (OSError "No such file or directory"), w)
  else (Ok tt, w ++ [path_join dst src]).

Definition install (config_get : config_lookup)
    (read_pyproject : result string)
    (tomllib_loads : string → option (list (string * toml)))
  : string → install_state World → result unit * install_state World :=
  install_manual_pages World config_get read_pyproject tomllib_loads
    (λ _, "") [] path_exists makedirs copy.

End ToyInstall.

(** * Properties *)

(** ** Strings *)

Section StrFacts.

Import Str.

Lemma append_nil_l (s : string) : "" +:+ s = s.
Proof. reflexivity. Qed.

Lemma append_cons (c : ascii) (s t : string) :
  String c s +:+ t = String c (s +:+ t).
Proof. reflexivity. Qed.

Lemma append_nil_r (s : string) : s +:+ "" = s.
Proof. induction s as [|c s IH]; [done|]. by rewrite append_cons, IH. Qed.

Lemma append_assoc (s t u : string) : (s +:+ t) +:+ u = s +:+ t +:+ u.
Proof.
  induction s as [|c s IH]; [done|]. by rewrite !append_cons, IH.
Qed.

Lemma split_nonempty (sep : ascii) (s : string) : split sep s ≠ [].
Proof.
  induction s as [|c s IH]; simpl; [done|].
  destruct (Ascii.eqb c sep); [done|]. by destruct (split sep s).
Qed.

(** Cutting [a + sep + b] cuts [a] and [b] apart. *)
Lemma split_app_sep (sep : ascii) (a b : string) :
  split sep (a +:+ String sep b) = split sep a ++ split sep b.
Proof.
  induction a as [|c a IH].
  - rewrite append_nil_l. simpl. by rewrite Ascii.eqb_refl.
  - rewrite append_cons. simpl. rewrite IH.
    destruct (Ascii.eqb c sep); [done|].
    pose proof (split_nonempty sep a). by destruct (split sep a).
Qed.

Lemma split_no_sep (sep : ascii) (s : string) :
  contains sep s = false → split sep s = [s].
Proof.
  induction s as [|c s IH]; simpl; [done|].
  intros [Hc Hs]%orb_false_iff. by rewrite Hc, (IH Hs).
Qed.

Lemma split_length (sep : ascii) (s : string) :
  length (split sep s) = S (count sep s).
Proof.
  induction s as [|c s IH]; simpl; [done|].
  destruct (Ascii.eqb c sep); simpl; [by rewrite IH|].
  pose proof (split_nonempty sep s).
  destruct (split sep s); [done|]. simpl in *. lia.
Qed.

Lemma count_zero_contains (sep : ascii) (s : string) :
  count sep s = 0 ↔ contains sep s = false.
Proof.
  induction s as [|c s IH]; simpl; [done|].
  destruct (Ascii.eqb c sep); simpl; [split; [lia|done]|done].
Qed.

Lemma lstrip_space_app (ws s : string) :
  all_space ws = true → lstrip (ws +:+ s) = lstrip s.
Proof.
  induction ws as [|c ws IH]; [done|]. simpl.
  intros [Hc Hws]%andb_true_iff. by rewrite Hc, IH.
Qed.

Lemma lstrip_solid (s : string) : starts_solid s = true → lstrip s = s.
Proof. destruct s as [|c s]; simpl; [done|]. by intros ->%negb_true_iff. Qed.

Lemma rstrip_all_space (ws : string) : all_space ws = true → rstrip ws = "".
Proof.
  induction ws as [|c ws IH]; [done|]. simpl.
  intros [Hc Hws]%andb_true_iff. by rewrite IH, Hc.
Qed.

Lemma rstrip_solid (s : string) : ends_solid s = true → rstrip s = s.
Proof.
  induction s as [|c s IH]; [done|]. simpl.
  destruct s as [|c' s]; [by intros ->%negb_true_iff|].
  intros H. rewrite (IH H). done.
Qed.

Lemma ends_solid_app (s t : string) :
  ends_solid t = true → ends_solid (s +:+ t) = true.
Proof.
  intros Ht. induction s as [|c s IH]; [done|].
  rewrite append_cons. simpl.
  destruct (s +:+ t) eqn:E; done.
Qed.

Lemma rstrip_app_space (s ws : string) :
  all_space ws = true → rstrip (s +:+ ws) = rstrip s.
Proof.
  intros Hws. induction s as [|c s IH].
  - rewrite append_nil_l. by apply rstrip_all_space.
  - rewrite append_cons. simpl. by rewrite IH.
Qed.

(** [strip] removes a whitespace frame around a text with solid ends. *)
Lemma strip_frame (ws1 ws2 s : string) :
  all_space ws1 = true → all_space ws2 = true →
  starts_solid s = true → ends_solid s = true →
  strip (ws1 +:+ s +:+ ws2) = s.
Proof.
  intros H1 H2 Hs He. unfold strip.
  rewrite lstrip_space_app by done.
  rewrite lstrip_solid.
  - rewrite rstrip_app_space by done. by apply rstrip_solid.
  - destruct s; [done|]. by rewrite append_cons.
Qed.

End StrFacts.

(** ** The error monad *)

Lemma bind_Ok {A B} (r : result A) (k : A → result B) (b : B) :
  r ≫= k = Ok b ↔ ∃ a, r = Ok a ∧ k a = Ok b.
Proof.
  destruct r as [a|e]; simpl.
  - split; [by exists a|]. by intros (a' & [= <-] & ?).
  - split; [done|]. by intros (a' & ? & ?).
Qed.

Lemma is_ok_false {A} (r : result A) : is_ok r = false ↔ ∃ e, r = Raise e.
Proof.
  destruct r as [a|e]; simpl.
  - split; [done|]. by intros [? ?].
  - split; [by exists e|done].
Qed.

(** Splits a hypothesis [r ≫= k = Ok b] into its two steps. *)
Ltac inv_bind H :=
  let a := fresh "a" in
  let Ha := fresh "Hstep" in
  apply bind_Ok in H as (a & Ha & H).

(** ** The ordered mapping *)

Section DictFacts.

Context {V : Type}.
Implicit Types (d : Dict.t V) (k f : string) (v : V).

Lemma get_set_eq k v d : Dict.get k (Dict.set k v d) = Some v.
Proof.
  induction d as [|[k' v'] d IH]; simpl.
  - by rewrite String.eqb_refl.
  - destruct (String.eqb_spec k' k) as [->|Hne]; simpl.
    + by rewrite String.eqb_refl.
    + by apply String.eqb_neq in Hne as ->.
Qed.

Lemma get_set_ne k f v d : k ≠ f → Dict.get f (Dict.set k v d) = Dict.get f d.
Proof.
  intros Hne. induction d as [|[k' v'] d IH]; simpl.
  - by apply String.eqb_neq in Hne as ->.
  - destruct (String.eqb_spec k' k) as [->|Hk]; simpl.
    + by apply String.eqb_neq in Hne as ->.
    + by rewrite IH.
Qed.

Lemma keys_set k v d :
  Dict.keys (Dict.set k v d) =
    if decide (k ∈ Dict.keys d) then Dict.keys d else Dict.keys d ++ [k].
Proof.
  unfold Dict.keys. induction d as [|[k' v'] d IH]; [done|].
  change (Dict.set k v ((k', v') :: d)) with
    (if String.eqb k' k then (k', v) :: d else (k', v') :: Dict.set k v d).
  destruct (String.eqb_spec k' k) as [->|Hk]; rewrite !fmap_cons; simpl fst.
  - rewrite decide_True; [done|]. apply elem_of_cons. by left.
  - rewrite IH. destruct (decide (k ∈ d.*1)) as [H|H].
    + rewrite decide_True; [done|]. apply elem_of_cons. by right.
    + rewrite decide_False; [done|].
      intros [?|?]%elem_of_cons; [by subst|done].
Qed.

Lemma elem_of_keys_set k f v d :
  f ∈ Dict.keys (Dict.set k v d) ↔ f = k ∨ f ∈ Dict.keys d.
Proof.
  rewrite keys_set. case_decide as H.
  - split; [by right|]. by intros [->|?].
  - rewrite elem_of_app, list_elem_of_singleton. tauto.
Qed.

Lemma NoDup_keys_set k v d :
  NoDup (Dict.keys d) → NoDup (Dict.keys (Dict.set k v d)).
Proof.
  intros Hnd. rewrite keys_set. case_decide as H; [done|].
  apply NoDup_app. split_and!; [done| |apply NoDup_singleton].
  intros x Hx ->%list_elem_of_singleton. done.
Qed.

End DictFacts.

(** ** The parser: structure of the two loops *)

Section ParserFacts.

Variable attrs : list string.

Lemma parse_options_app (d : record) (l1 l2 : list string) :
  parse_options attrs d (l1 ++ l2) =
    parse_options attrs d l1 ≫= λ d', parse_options attrs d' l2.
Proof.
  revert d. induction l1 as [|o l1 IH]; intros d; simpl; [done|].
  destruct (parse_option attrs d o) as [d'|e]; simpl; [apply IH|done].
Qed.

Lemma parse_specs_app (m : Dict.t record) (l1 l2 : list string) :
  parse_specs attrs m (l1 ++ l2) =
    parse_specs attrs m l1 ≫= λ m', parse_specs attrs m' l2.
Proof.
  revert m. induction l1 as [|s l1 IH]; intros m; simpl; [done|].
  destruct (parse_spec attrs s) as [[f d]|e]; simpl; [apply IH|done].
Qed.

Lemma parse_spec_outputfile (spec f : string) (d : record) :
  parse_spec attrs spec = Ok (f, d) → f = outputfile_of spec.
Proof.
  unfold parse_spec, outputfile_of.
  destruct (Str.split ":" spec) as [|o options]; [done|].
  intros H. inv_bind H. by injection H as <- _.
Qed.

(** The empty line is a declaration of the empty output file, without
    options. *)
Lemma parse_spec_empty : parse_spec attrs "" = Ok ("", ∅).
Proof. reflexivity. Qed.

(** Lines that declare other files leave the record of [f] alone. *)
Lemma parse_specs_get_other (f : string) (specs : list string)
    (m m' : Dict.t record) :
  parse_specs attrs m specs = Ok m' →
  Forall (λ s, outputfile_of s ≠ f) specs →
  Dict.get f m' = Dict.get f m.
Proof.
  revert m. induction specs as [|s specs IH]; intros m H Hall; simpl in H.
  - by injection H as <-.
  - inv_bind H. destruct a as [g d].
    apply Forall_cons in Hall as [Hs Hall].
    apply parse_spec_outputfile in Hstep as ->.
    rewrite (IH _ H Hall). by apply get_set_ne.
Qed.

Lemma parse_specs_keys (specs : list string) (m m' : Dict.t record) :
  parse_specs attrs m specs = Ok m' →
  NoDup (Dict.keys m) →
  NoDup (Dict.keys m') ∧
  ∀ f, f ∈ Dict.keys m' ↔
       f ∈ Dict.keys m ∨ ∃ s, s ∈ specs ∧ outputfile_of s = f.
Proof.
  revert m. induction specs as [|s specs IH]; intros m H Hnd; simpl in H.
  - injection H as <-. split; [done|]. intros f. split; [by left|].
    intros [?|(s & Hs & _)]; [done|]. by apply elem_of_nil in Hs.
  - inv_bind H. destruct a as [g d].
    apply parse_spec_outputfile in Hstep as ->.
    destruct (IH _ H (NoDup_keys_set _ _ _ Hnd)) as [Hnd' Hkeys].
    split; [done|]. intros f. rewrite Hkeys, elem_of_keys_set. split.
    + intros [[->|?]|(s' & Hs' & <-)]; [right; exists s|by left|right; exists s'];
        (split; [|done]); apply elem_of_cons; auto.
    + intros [?|(s' & [->|Hs']%elem_of_cons & <-)]; [by left; right|by left; left|].
      right. by exists s'.
Qed.

End ParserFacts.

(** ** The parser: one option *)

(** Case analysis on the option name, along the [if]/[elif] chain. *)
Ltac case_oname :=
  repeat match goal with
    | |- context [String.eqb ?x ?y] =>
        is_var x; destruct (String.eqb_spec x y) as [->|?];
        cbn [String.eqb Ascii.eqb Bool.eqb orb andb negb] in *
    | H : context [String.eqb ?x ?y] |- _ =>
        is_var x; destruct (String.eqb_spec x y) as [->|?];
        cbn [String.eqb Ascii.eqb Bool.eqb orb andb negb] in *
    end.

Lemma has_key_true (k : string) (d : record) :
  has_key k d = true ↔ is_Some (d !! k).
Proof.
  unfold has_key. destruct (d !! k); split; done.
Qed.

Lemma has_key_false (k : string) (d : record) :
  has_key k d = false ↔ d !! k = None.
Proof. unfold has_key. by destruct (d !! k). Qed.

Lemma py_assert_Ok (c : bool) (u : unit) : py_assert c = Ok u → c = true.
Proof. by destruct c. Qed.

Section OptionFacts.

Variable attrs : list string.

Lemma parse_option_unpack (d : record) (option oname ovalue : string) :
  unpack_option option = Ok (oname, ovalue) →
  parse_option attrs d option = apply_option attrs d oname ovalue.
Proof. unfold parse_option. by intros ->. Qed.

(** An option never removes a field. *)
Lemma apply_option_keeps_keys (d d' : record) (oname ovalue k : string) :
  apply_option attrs d oname ovalue = Ok d' →
  is_Some (d !! k) → is_Some (d' !! k).
Proof.
  intros H Hk. unfold apply_option, append_author in H.
  repeat case_match; try inv_bind H; simplify_eq;
    rewrite ?lookup_insert_is_Some'; tauto.
Qed.

Lemma parse_options_keeps_keys (options : list string) (d d' : record)
    (k : string) :
  parse_options attrs d options = Ok d' →
  is_Some (d !! k) → is_Some (d' !! k).
Proof.
  revert d. induction options as [|o options IH]; intros d H Hk; simpl in H.
  - by injection H as <-.
  - inv_bind H. apply (IH _ H). unfold parse_option in Hstep.
    inv_bind Hstep. destruct a0 as [oname ovalue].
    by eapply apply_option_keeps_keys.
Qed.

(** An option that may be given once fails when its key is there. *)
Lemma apply_option_duplicate (d : record) (oname ovalue key : string) :
  exclusive_key oname = Some key →
  has_key key d = true →
  apply_option attrs d oname ovalue = Raise AssertionError.
Proof.
  unfold exclusive_key, apply_option. intros Hkey Hd.
  case_oname; simplify_eq; by rewrite Hd.
Qed.

(** After an option that may be given once, its key is there. *)
Lemma apply_option_sets_exclusive (d d' : record)
    (oname ovalue key : string) :
  exclusive_key oname = Some key →
  apply_option attrs d oname ovalue = Ok d' →
  has_key key d' = true.
Proof.
  unfold exclusive_key, apply_option. intros Hkey H.
  apply has_key_true.
  case_oname; simplify_eq; inv_bind H; simplify_eq;
    rewrite !lookup_insert_is_Some'; auto 10.
Qed.

(** A name without a branch, or the name [authors], is refused. *)
Lemma apply_option_unknown (d : record) (oname ovalue : string) :
  oname ∉ special_names →
  oname ∉ attrs ∨ oname = "authors" →
  apply_option attrs d oname ovalue = Raise (unknown_option oname).
Proof.
  unfold special_names, apply_option. intros Hsp Hno.
  rewrite !not_elem_of_cons in Hsp.
  destruct Hsp as (? & ? & ? & ? & ? & ? & _).
  repeat (rewrite (proj2 (String.eqb_neq _ _)) by done).
  cbn [orb]. destruct Hno as [Hno| ->].
  - by rewrite bool_decide_eq_false_2.
  - cbn [String.eqb Ascii.eqb Bool.eqb]. by rewrite andb_false_r.
Qed.

End OptionFacts.

(** ** The parser: reaching an option *)

Section Reaching.

Variable attrs : list string.

(** What the option raises, once reached, is what the parse raises. *)
Lemma parse_fails_at (text : string) (prev pre : list string)
    (option : string) (m : Dict.t record) (d : record) (e : exn) :
  has_option_after text prev pre option →
  parse_specs attrs [] prev = Ok m →
  parse_options attrs ∅ pre = Ok d →
  parse_option attrs d option = Raise e →
  parse_manpages_spec attrs text = Raise e.
Proof.
  intros (spec & rest & outputfile & post & Hlines & Hsplit) Hprev Hpre Ho.
  unfold parse_manpages_spec. rewrite Hlines, parse_specs_app, Hprev.
  simpl. unfold parse_spec. rewrite Hsplit, parse_options_app, Hpre.
  simpl. by rewrite Ho.
Qed.

(** An option that fails on every record lets no parse succeed. *)
Lemma parse_never_ok (text : string) (prev pre : list string)
    (option : string) :
  has_option_after text prev pre option →
  (∀ d, is_ok (parse_option attrs d option) = false) →
  is_ok (parse_manpages_spec attrs text) = false.
Proof.
  intros (spec & rest & outputfile & post & Hlines & Hsplit) Hfail.
  unfold parse_manpages_spec. rewrite Hlines, parse_specs_app.
  destruct (parse_specs attrs [] prev) as [m|e]; [|done].
  simpl. unfold parse_spec. rewrite Hsplit, parse_options_app.
  destruct (parse_options attrs ∅ pre) as [d|e]; [|done].
  simpl. specialize (Hfail d).
  by destruct (parse_option attrs d option).
Qed.

(** An option given once leaves its key in the record of the line. *)
Lemma parse_options_sets_exclusive (pre : list string) (d0 d : record)
    (first oname ovalue key : string) :
  parse_options attrs d0 pre = Ok d →
  first ∈ pre →
  unpack_option first = Ok (oname, ovalue) →
  exclusive_key oname = Some key →
  has_key key d = true.
Proof.
  revert d0. induction pre as [|o pre IH]; intros d0 H Hin Hun Hkey.
  - by apply elem_of_nil in Hin.
  - simpl in H. inv_bind H. apply elem_of_cons in Hin as [<-|Hin].
    + rewrite (parse_option_unpack _ _ _ _ _ Hun) in Hstep.
      apply has_key_true.
      apply (parse_options_keeps_keys _ _ _ _ _ H).
      apply has_key_true. by eapply apply_option_sets_exclusive.
    + by eapply IH.
Qed.

End Reaching.

(** ** Claims on the parser's errors *)

(** C6: a text with an option whose name has no branch of its own and is
    not in the allow-list is never parsed to a mapping; when the parse
    gets to that option, it stops there with the unrecognized-option
    error, whose message ends with the name. *)
Theorem unknown_option_rejected (attrs : list string) (text : string)
    (prev pre : list string) (option oname ovalue : string) :
  has_option_after text prev pre option →
  unpack_option option = Ok (oname, ovalue) →
  oname ∉ special_names →
  oname ∉ attrs →
  is_ok (parse_manpages_spec attrs text) = false ∧
  ∀ m d,
    parse_specs attrs [] prev = Ok m →
    parse_options attrs ∅ pre = Ok d →
    parse_manpages_spec attrs text =
      Raise (ValueError ("Unknown manpage configuration option: " +:+ oname)).
Proof.
  intros Hat Hun Hsp Hno. split.
  - apply (parse_never_ok _ _ _ _ _ Hat). intros d.
    rewrite (parse_option_unpack _ _ _ _ _ Hun).
    rewrite apply_option_unknown; auto.
  - intros m d Hprev Hpre.
    apply (parse_fails_at _ _ _ _ _ _ _ _ Hat Hprev Hpre).
    rewrite (parse_option_unpack _ _ _ _ _ Hun).
    apply apply_option_unknown; auto.
Qed.

Lemma unknown_option_rejected_witness :
  is_ok (parse_manpages_spec ["manual_title"; "manfile"]
           "a.1:function=main:colour=red") = false ∧
  parse_manpages_spec ["manual_title"; "manfile"]
    "a.1:function=main:colour=red" =
    Raise (ValueError "Unknown manpage configuration option: colour").
Proof.
  assert (has_option_after "a.1:function=main:colour=red" []
            ["function=main"] "colour=red") as Hat.
  { by exists "a.1:function=main:colour=red", [], "a.1", []. }
  destruct (unknown_option_rejected ["manual_title"; "manfile"]
              "a.1:function=main:colour=red" [] ["function=main"]
              "colour=red" "colour" "red" Hat) as [Hno Hat'].
  - reflexivity.
  - unfold special_names. compute_done.
  - compute_done.
  - split; [exact Hno|]. by eapply Hat'.
Defined.

(** C7: when the parse gets to a [function] or [object] option and the
    record of the line has [objtype] already, it fails with the assertion
    error of the duplicate check; the same for [pyfile] or [module] with
    [import_type], and for [format] with [format]. ([exclusive_key] gives
    the key that is checked for each of these names.) *)
Theorem duplicate_field_rejected (attrs : list string) (text : string)
    (prev pre : list string) (option oname ovalue key : string)
    (m : Dict.t record) (d : record) :
  has_option_after text prev pre option →
  unpack_option option = Ok (oname, ovalue) →
  exclusive_key oname = Some key →
  parse_specs attrs [] prev = Ok m →
  parse_options attrs ∅ pre = Ok d →
  has_key key d = true →
  parse_manpages_spec attrs text = Raise AssertionError.
Proof.
  intros Hat Hun Hkey Hprev Hpre Hd.
  apply (parse_fails_at _ _ _ _ _ _ _ _ Hat Hprev Hpre).
  rewrite (parse_option_unpack _ _ _ _ _ Hun).
  by eapply apply_option_duplicate.
Qed.

Lemma duplicate_field_rejected_witness :
  parse_manpages_spec [] "a.1:function=main:module=foo:function=other" =
    Raise AssertionError.
Proof.
  apply (duplicate_field_rejected []
           "a.1:function=main:module=foo:function=other"
           [] ["function=main"; "module=foo"] "function=other"
           "function" "other" "objtype" []
           (<["import_from" := VStr "foo"]>
              (<["import_type" := VStr "module"]>
                 (<["objname" := VStr "main"]>
                    (<["objtype" := VStr "function"]> ∅))))).
  - by exists "a.1:function=main:module=foo:function=other", [], "a.1", [].
  - reflexivity.
  - reflexivity.
  - reflexivity.
  - reflexivity.
  - reflexivity.
Defined.

(** The same for the second of two options with one key: the first one
    has left the key in the record. *)
Lemma second_exclusive_option_rejected (attrs : list string) (text : string)
    (prev pre : list string) (first option : string)
    (oname1 ovalue1 oname2 ovalue2 key : string)
    (m : Dict.t record) (d : record) :
  has_option_after text prev pre option →
  first ∈ pre →
  unpack_option first = Ok (oname1, ovalue1) →
  unpack_option option = Ok (oname2, ovalue2) →
  exclusive_key oname1 = Some key →
  exclusive_key oname2 = Some key →
  parse_specs attrs [] prev = Ok m →
  parse_options attrs ∅ pre = Ok d →
  parse_manpages_spec attrs text = Raise AssertionError.
Proof.
  intros Hat Hin Hun1 Hun2 Hk1 Hk2 Hprev Hpre.
  apply (parse_fails_at _ _ _ _ _ _ _ _ Hat Hprev Hpre).
  rewrite (parse_option_unpack _ _ _ _ _ Hun2).
  eapply apply_option_duplicate; [done|].
  by eapply parse_options_sets_exclusive.
Qed.

(** C10: an option named [authors] is never accepted, whatever the
    allow-list holds: no text with such an option is parsed to a mapping,
    and when the parse gets to the option it stops with the
    unrecognized-option error for [authors]. *)
Theorem authors_option_rejected (attrs : list string) (text : string)
    (prev pre : list string) (option ovalue : string) :
  has_option_after text prev pre option →
  unpack_option option = Ok ("authors", ovalue) →
  is_ok (parse_manpages_spec attrs text) = false ∧
  ∀ m d,
    parse_specs attrs [] prev = Ok m →
    parse_options attrs ∅ pre = Ok d →
    parse_manpages_spec attrs text =
      Raise (ValueError "Unknown manpage configuration option: authors").
Proof.
  assert ("authors" ∉ special_names) as Hsp by (unfold special_names; compute_done).
  intros Hat Hun. split.
  - apply (parse_never_ok _ _ _ _ _ Hat). intros d.
    rewrite (parse_option_unpack _ _ _ _ _ Hun).
    rewrite apply_option_unknown; auto.
  - intros m d Hprev Hpre.
    apply (parse_fails_at _ _ _ _ _ _ _ _ Hat Hprev Hpre).
    rewrite (parse_option_unpack _ _ _ _ _ Hun).
    rewrite apply_option_unknown; auto.
Qed.

Lemma authors_option_rejected_witness :
  is_ok (parse_manpages_spec ["authors"; "author"; "prog"]
           "a.1:module=foo:authors=X") = false ∧
  parse_manpages_spec ["authors"; "author"; "prog"]
    "a.1:module=foo:authors=X" =
    Raise (ValueError "Unknown manpage configuration option: authors").
Proof.
  assert (has_option_after "a.1:module=foo:authors=X" []
            ["module=foo"] "authors=X") as Hat.
  { by exists "a.1:module=foo:authors=X", [], "a.1", []. }
  destruct (authors_option_rejected ["authors"; "author"; "prog"]
              "a.1:module=foo:authors=X" [] ["module=foo"]
              "authors=X" "X" Hat) as [Hno Hat'].
  - reflexivity.
  - split; [exact Hno|]. by eapply Hat'.
Defined.

(** ** Claims on the mapping *)

(** C8: in the mapping of a text that parses, no key comes twice, the
    keys are the output files that the lines declare, and the record of
    an output file is the record of the last line that declares it,
    parsed on its own from the empty record. *)
Theorem last_declaration_wins (attrs : list string) (text : string)
    (m : Dict.t record) :
  parse_manpages_spec attrs text = Ok m →
  NoDup (Dict.keys m) ∧
  (∀ f, f ∈ Dict.keys m ↔
        ∃ spec, spec ∈ Str.split Str.LF (Str.strip text) ∧
                outputfile_of spec = f) ∧
  (∀ l1 spec l2,
     Str.split Str.LF (Str.strip text) = l1 ++ spec :: l2 →
     Forall (λ s, outputfile_of s ≠ outputfile_of spec) l2 →
     ∃ d, parse_spec attrs spec = Ok (outputfile_of spec, d) ∧
          Dict.get (outputfile_of spec) m = Some d).
Proof.
  unfold parse_manpages_spec. intros H.
  destruct (parse_specs_keys attrs _ _ _ H (NoDup_nil_2)) as [Hnd Hkeys].
  split_and!; [done| |].
  - intros f. rewrite Hkeys. split; [|by right].
    intros [Hf|?]; [|done]. by apply elem_of_nil in Hf.
  - intros l1 spec l2 Hlines Hlast. rewrite Hlines, parse_specs_app in H.
    inv_bind H. simpl in H. inv_bind H. destruct a0 as [f d].
    pose proof (parse_spec_outputfile _ _ _ _ Hstep0) as ->.
    exists d. split; [done|].
    rewrite (parse_specs_get_other _ _ _ _ _ H Hlast).
    apply get_set_eq.
Qed.

Lemma last_declaration_wins_witness :
  let text := "a.1:function=main" +:+ Str.NL +:+ "b.1" +:+ Str.NL
              +:+ "a.1:format=old" in
  let m := [("a.1", ({[ "format" := VStr "old" ]} : record)); ("b.1", ∅)] in
  parse_manpages_spec [] text = Ok m ∧
  NoDup (Dict.keys m) ∧
  Dict.get "a.1" m = Some {[ "format" := VStr "old" ]}.
Proof.
  intros text m.
  assert (parse_manpages_spec [] text = Ok m) as Hparse by reflexivity.
  destruct (last_declaration_wins [] text m Hparse) as (Hnd & _ & Hlast).
  split_and!; [done|done|].
  destruct (Hlast ["a.1:function=main"; "b.1"] "a.1:format=old" [])
    as (d & Hd & Hget); [reflexivity|constructor|].
  vm_compute in Hd. injection Hd as <-. exact Hget.
Defined.

(** ** Empty lines *)

(** C3, as the spec states it, fails: an empty line between two
    declarations is parsed as a declaration of the output file [""]
    without options, and the mapping gets the key [""]; the text without
    the empty line gives a mapping without that key. *)
Lemma empty_line_makes_record :
  let text := "a.1:module=x" +:+ Str.NL +:+ Str.NL +:+ "b.1:module=y" in
  remove_empty_lines text = "a.1:module=x" +:+ Str.NL +:+ "b.1:module=y" ∧
  parse_manpages_spec [] text =
    Ok [("a.1", {[ "import_type" := VStr "module";
                   "import_from" := VStr "x" ]});
        ("", ∅);
        ("b.1", {[ "import_type" := VStr "module";
                   "import_from" := VStr "y" ]})] ∧
  parse_manpages_spec [] (remove_empty_lines text) =
    Ok [("a.1", {[ "import_type" := VStr "module";
                   "import_from" := VStr "x" ]});
        ("b.1", {[ "import_type" := VStr "module";
                   "import_from" := VStr "y" ]})] ∧
  parse_manpages_spec [] text ≠
    parse_manpages_spec [] (remove_empty_lines text).
Proof. split_and!; [reflexivity..|]. intros H. vm_compute in H. done. Qed.

(** C3, amended: only the whitespace at the two ends of the text is
    dropped, and with it the empty lines there; an empty line between two
    lines is a declaration of its own, which puts the empty record under
    the output file [""] before the lines that follow are parsed. *)
Theorem inner_empty_line_kept (attrs : list string) (ws1 ws2 a b : string) :
  all_space ws1 = true →
  all_space ws2 = true →
  starts_solid a = true →
  ends_solid b = true →
  parse_manpages_spec attrs
    (ws1 +:+ (a +:+ Str.NL +:+ Str.NL +:+ b) +:+ ws2) =
    parse_specs attrs [] (Str.split Str.LF a) ≫= λ m,
      parse_specs attrs (Dict.set "" ∅ m) (Str.split Str.LF b).
Proof.
  intros H1 H2 Ha Hb. unfold parse_manpages_spec.
  rewrite strip_frame; [|done|done| |].
  - change (Str.NL +:+ Str.NL +:+ b) with (String Str.LF (String Str.LF b)).
    rewrite split_app_sep, parse_specs_app.
    by destruct (parse_specs attrs [] (Str.split Str.LF a)) as [m|e].
  - destruct a as [|c a]; [done|]. exact Ha.
  - by do 3 apply ends_solid_app.
Qed.

Lemma inner_empty_line_kept_witness :
  parse_manpages_spec ["prog"]
    (Str.NL +:+ ("a.1:module=x" +:+ Str.NL +:+ Str.NL +:+ "b.1:module=y")
       +:+ (Str.NL +:+ Str.NL)) =
    Ok [("a.1", {[ "import_type" := VStr "module";
                   "import_from" := VStr "x" ]});
        ("", ∅);
        ("b.1", {[ "import_type" := VStr "module";
                   "import_from" := VStr "y" ]})].
Proof.
  rewrite (inner_empty_line_kept ["prog"] Str.NL (Str.NL +:+ Str.NL)
             "a.1:module=x" "b.1:module=y");
    reflexivity.
Defined.

(** ** Option tokens *)

Lemma split_one_sep (sep : ascii) (s : string) :
  Str.count sep s = 1 →
  Str.split sep s = [before_first sep s; after_first sep s].
Proof.
  induction s as [|c s IH]; simpl; [done|].
  destruct (Ascii.eqb c sep); simpl.
  - intros [= H%count_zero_contains]. by rewrite split_no_sep.
  - intros H. by rewrite (IH H).
Qed.

(** C4, as the spec states it, fails: a token whose value has an equals
    sign is cut at every one of them, and the unpacking into two names
    raises; the cut at the first sign would give the name and the rest. *)
Lemma value_with_equals_rejected :
  spec_split_first "=" "description=a=b" = ("description", "a=b") ∧
  unpack_option "description=a=b" = Raise (UnpackError 3) ∧
  parse_manpages_spec ["description"] "a.1:module=foo:description=a=b" =
    Raise (UnpackError 3).
Proof. by split_and!. Qed.

Lemma unpack_option_one (option : string) :
  Str.count "=" option = 1 →
  unpack_option option = Ok (spec_split_first "=" option).
Proof.
  intros H1. unfold unpack_option, spec_split_first.
  by rewrite (split_one_sep _ _ H1).
Qed.

Lemma unpack_option_other (option : string) :
  Str.count "=" option ≠ 1 →
  unpack_option option = Raise (UnpackError (S (Str.count "=" option))).
Proof.
  intros H1. unfold unpack_option.
  pose proof (split_length "=" option) as Hlen.
  destruct (Str.split "=" option) as [|p1 [|p2 [|p3 pieces]]];
    simpl in *; try done; [by rewrite Hlen|lia|by rewrite Hlen].
Qed.

(** The unpacking error ends the parse of the option. *)
Lemma parse_option_unpack_error (attrs : list string) (d : record)
    (option : string) :
  Str.count "=" option ≠ 1 →
  parse_option attrs d option =
    Raise (UnpackError (S (Str.count "=" option))).
Proof.
  intros H. unfold parse_option. by rewrite unpack_option_other.
Qed.

(** C4, amended: a token is cut at every equals sign and has to give
    two pieces. With one sign the pieces are the name before it and the
    value after it; with none or with more than one the unpacking raises
    (and the parse with it). *)
Theorem unpack_option_one_equals (option : string) :
  unpack_option option =
    if Nat.eqb (Str.count "=" option) 1
    then Ok (spec_split_first "=" option)
    else Raise (UnpackError (S (Str.count "=" option))).
Proof.
  destruct (Nat.eqb_spec (Str.count "=" option) 1) as [H1|H1].
  - by apply unpack_option_one.
  - by apply unpack_option_other.
Qed.

(** ** The program name *)

Section Prog.

Variable attrs : list string.

(** Once [import_type] is there, no option changes the three fields of
    the import. *)
Lemma apply_option_import_fixed (d d' : record)
    (oname ovalue k : string) (t v : value) :
  d !! "import_type" = Some t →
  k ∈ ["import_type"; "import_from"; "prog"] →
  d !! k = Some v →
  apply_option attrs d oname ovalue = Ok d' →
  d' !! k = Some v.
Proof.
  intros Ht Hk Hv H. unfold apply_option, append_author in H.
  assert (has_key "import_type" d = true) as Himp
    by (apply has_key_true; eauto).
  assert (k ≠ "objtype" ∧ k ≠ "objname" ∧ k ≠ "format" ∧ k ≠ "authors")
    as (? & ? & ? & ?).
  { rewrite !elem_of_cons, elem_of_nil in Hk.
    by destruct Hk as [->|[->|[->|[]]]]. }
  case_oname; rewrite ?Himp, ?andb_false_r in H;
    cbn [negb py_assert mbind result_bind] in H; try done.
  - inv_bind H. simplify_eq. by rewrite !lookup_insert_ne.
  - inv_bind H. simplify_eq. by rewrite !lookup_insert_ne.
  - inv_bind H. simplify_eq. by rewrite !lookup_insert_ne.
  - destruct (d !! "authors") as [[s|l]|]; simplify_eq;
      by rewrite lookup_insert_ne.
  - case_match; [|done]. inv_bind H. simplify_eq.
    apply py_assert_Ok, negb_true_iff, has_key_false in Hstep.
    rewrite lookup_insert_ne; [done|].
    intros Heq. rewrite Heq in Hstep. congruence.
Qed.

Lemma parse_options_import_fixed (options : list string) (d d' : record)
    (k : string) (t v : value) :
  d !! "import_type" = Some t →
  k ∈ ["import_type"; "import_from"; "prog"] →
  d !! k = Some v →
  parse_options attrs d options = Ok d' →
  d' !! k = Some v.
Proof.
  revert d t. induction options as [|o options IH]; intros d t Ht Hk Hv H.
  - simpl in H. by simplify_eq.
  - simpl in H. inv_bind H. unfold parse_option in Hstep. inv_bind Hstep.
    destruct a0 as [oname ovalue].
    assert (is_Some (a !! "import_type")) as [t' Ht'].
    { apply (apply_option_keeps_keys attrs d a oname ovalue _ Hstep).
      by exists t. }
    apply (IH a t' Ht' Hk); [|done].
    exact (apply_option_import_fixed d a oname ovalue k t v Ht Hk Hv Hstep).
Qed.

(** What a [pyfile] option leaves in the record, when it is accepted. *)
Lemma apply_option_pyfile (d d' : record) (ovalue : string) :
  apply_option attrs d "pyfile" ovalue = Ok d' →
  d' !! "import_type" = Some (VStr "pyfile") ∧
  d' !! "import_from" = Some (VStr ovalue) ∧
  d' !! "prog" = Some (VStr (Str.basename ovalue)).
Proof.
  unfold apply_option. cbn [String.eqb Ascii.eqb Bool.eqb orb].
  intros H. inv_bind H. cbv zeta in H.
  cbn [String.eqb Ascii.eqb Bool.eqb] in H. simplify_eq.
  split_and!; by simplify_map_eq.
Qed.

Lemma parse_options_pyfile (options : list string) (d0 d : record)
    (option ovalue : string) :
  parse_options attrs d0 options = Ok d →
  option ∈ options →
  unpack_option option = Ok ("pyfile", ovalue) →
  d !! "import_type" = Some (VStr "pyfile") ∧
  d !! "import_from" = Some (VStr ovalue) ∧
  d !! "prog" = Some (VStr (Str.basename ovalue)).
Proof.
  revert d0. induction options as [|o options IH]; intros d0 H Hin Hun.
  - by apply elem_of_nil in Hin.
  - simpl in H. inv_bind H. apply elem_of_cons in Hin as [<-|Hin].
    + rewrite (parse_option_unpack _ _ _ _ _ Hun) in Hstep.
      apply apply_option_pyfile in Hstep as (Ht & Hf & Hp).
      split_and!; eapply parse_options_import_fixed; eauto;
        rewrite !elem_of_cons; auto.
    + by eapply IH.
Qed.

End Prog.

(** C5, as the spec states it, fails in its last part: the [pyfile]
    branch sets [prog] without looking at the record, so that a [prog]
    given before it in the line is replaced; a [prog] given after it is
    refused by the duplicate check of its own branch. *)
Lemma explicit_prog_replaced :
  parse_manpages_spec ["prog"] "a.1:prog=mytool:pyfile=/path/to/tool.py" =
    Ok [("a.1", {[ "prog" := VStr "tool.py";
                   "import_type" := VStr "pyfile";
                   "import_from" := VStr "/path/to/tool.py" ]})] ∧
  parse_manpages_spec ["prog"] "a.1:pyfile=/path/to/tool.py:prog=mytool" =
    Raise AssertionError.
Proof. by split. Qed.

(** C5, amended: the record of a line that parses and has a [pyfile]
    option holds [import_type = "pyfile"], the value of the option as
    [import_from], and the base name of that value as [prog], whatever
    else the line gives. *)
Theorem pyfile_sets_prog (attrs : list string) (spec outputfile : string)
    (d : record) (option ovalue : string) :
  parse_spec attrs spec = Ok (outputfile, d) →
  option ∈ tail (Str.split ":" spec) →
  unpack_option option = Ok ("pyfile", ovalue) →
  d !! "import_type" = Some (VStr "pyfile") ∧
  d !! "import_from" = Some (VStr ovalue) ∧
  d !! "prog" = Some (VStr (Str.basename ovalue)).
Proof.
  unfold parse_spec. intros H Hin Hun.
  destruct (Str.split ":" spec) as [|o options]; [done|].
  inv_bind H. simplify_eq. simpl in Hin.
  by eapply parse_options_pyfile.
Qed.

Lemma pyfile_sets_prog_witness :
  ∃ d, parse_spec [] "a.1:function=main:pyfile=/path/to/tool.py"
       = Ok ("a.1", d) ∧
       d !! "import_from" = Some (VStr "/path/to/tool.py") ∧
       d !! "prog" = Some (VStr "tool.py").
Proof.
  eexists. split; [reflexivity|].
  eapply (pyfile_sets_prog [] "a.1:function=main:pyfile=/path/to/tool.py"
            "a.1" _ "pyfile=/path/to/tool.py" "/path/to/tool.py").
  - reflexivity.
  - compute_done.
  - reflexivity.
Defined.

(** ** Authors *)

Section Authors.

Variable attrs : list string.

Lemma apply_option_authors (d d' : record) (oname ovalue : string)
    (l : list string) :
  apply_option attrs d oname ovalue = Ok d' →
  d !! "authors" = authors_field l →
  d' !! "authors" =
    authors_field (if String.eqb oname "author" then l ++ [ovalue] else l).
Proof.
  intros H Hl. unfold apply_option, append_author in H.
  case_oname; rewrite ?andb_false_r in H; try done;
    try (rewrite Hl in H; destruct l as [|x l]; simpl in H; simplify_eq;
         by rewrite lookup_insert_eq);
    try (case_match; [|done]);
    inv_bind H; cbv zeta in H; simplify_eq; by rewrite !lookup_insert_ne.
Qed.

Lemma parse_options_authors (options : list string) (d d' : record)
    (l : list string) :
  parse_options attrs d options = Ok d' →
  d !! "authors" = authors_field l →
  d' !! "authors" = authors_field (l ++ author_values options).
Proof.
  revert d l. induction options as [|o options IH]; intros d l H Hl.
  - simpl in H. simplify_eq. by rewrite app_nil_r.
  - simpl in H. inv_bind H. unfold parse_option in Hstep. inv_bind Hstep.
    destruct a0 as [oname ovalue]. simpl. rewrite Hstep0.
    pose proof (apply_option_authors _ _ _ _ _ Hstep Hl) as Hl'.
    rewrite (IH _ _ H Hl').
    destruct (String.eqb oname "author"); [|done].
    by rewrite <- app_assoc.
Qed.

End Authors.

(** C9: the line of the spec's example parses to the record with the
    five fields it names, [authors] holding the two values in order; and
    in general the record of a line that parses has, as [authors], the
    values of its [author] options in their order (no field when the line
    has no such option). *)
Theorem author_accumulates (attrs : list string) :
  parse_manpages_spec attrs
    "a.1:function=main:module=foo:author=X:author=Y" =
    Ok [("a.1", {[ "objtype" := VStr "function";
                   "objname" := VStr "main";
                   "import_type" := VStr "module";
                   "import_from" := VStr "foo";
                   "authors" := VList ["X"; "Y"] ]})] ∧
  ∀ spec outputfile d,
    parse_spec attrs spec = Ok (outputfile, d) →
    d !! "authors" =
      authors_field (author_values (tail (Str.split ":" spec))).
Proof.
  split; [by vm_compute|].
  unfold parse_spec. intros spec outputfile d H.
  destruct (Str.split ":" spec) as [|o options]; [done|].
  inv_bind H. simplify_eq. simpl.
  by apply (parse_options_authors attrs options ∅ d []).
Qed.

Lemma author_accumulates_witness :
  ∃ d, parse_spec ["prog"] "b.1:author=A:prog=b:author=B:author=A"
       = Ok ("b.1", d) ∧
       d !! "authors" = Some (VList ["A"; "B"; "A"]).
Proof.
  eexists. split; [reflexivity|].
  destruct (author_accumulates ["prog"]) as [_ H].
  apply (H "b.1:author=A:prog=b:author=B:author=A" "b.1"). reflexivity.
Defined.

(** ** The settings resolver *)

Section ResolverFacts.

Variable read_pyproject : result string.
Variable tomllib_loads : string → option (list (string * toml)).
Variable py_str : toml → string.

(** A non-empty [self.manpages] is the text, and nothing is read. *)
Lemma resolve_override (s : string) :
  s ≠ "" →
  resolve_manpages read_pyproject tomllib_loads py_str (Some s) = Ok s.
Proof.
  intros Hs%String.eqb_neq. unfold resolve_manpages. rewrite Hs. simpl.
  by rewrite Hs.
Qed.

(** Without it, the text is what [get_pyproject_settings] returns, and
    an empty or missing value there is the configuration-missing
    error. *)
Lemma resolve_fallback (manpages : option string) :
  manpages = None ∨ manpages = Some "" →
  resolve_manpages read_pyproject tomllib_loads py_str manpages =
    match get_pyproject_settings read_pyproject tomllib_loads py_str with
    | Ok (Some s) => if String.eqb s "" then Raise option_required else Ok s
    | Ok None => Raise option_required
    | Raise e => Raise e
    end.
Proof.
  intros [-> | ->]; unfold resolve_manpages; simpl;
    by destruct (get_pyproject_settings _ _ _) as [[s|]|e].
Qed.

(** The value under [tool], [build_manpages], [manpages], when the file
    is read and decoded: a string as it is, a list of strings joined
    by line feeds. *)
Lemma pyproject_string (text s : string) (content tool cmd : list (string * toml)) :
  read_pyproject = Ok text →
  tomllib_loads text = Some content →
  Dict.get "tool" content = Some (TTable tool) →
  Dict.get DEFAULT_CMD_NAME tool = Some (TTable cmd) →
  Dict.get "manpages" cmd = Some (TString s) →
  get_pyproject_settings read_pyproject tomllib_loads py_str = Ok (Some s).
Proof.
  intros Hr Hl Ht Hc Hm. unfold get_pyproject_settings.
  rewrite Hr. simpl. rewrite Hl. simpl. rewrite Ht. simpl.
  rewrite Hc. simpl. by rewrite Hm.
Qed.

Lemma join_items_strings (l : list string) :
  join_items (TString <$> l) = Ok l.
Proof.
  induction l as [|x l IH]; [done|].
  rewrite fmap_cons. cbn -[fmap]. by rewrite IH.
Qed.

Lemma pyproject_list (text : string) (l : list string)
    (content tool cmd : list (string * toml)) :
  read_pyproject = Ok text →
  tomllib_loads text = Some content →
  Dict.get "tool" content = Some (TTable tool) →
  Dict.get DEFAULT_CMD_NAME tool = Some (TTable cmd) →
  Dict.get "manpages" cmd = Some (TArray (TString <$> l)) →
  get_pyproject_settings read_pyproject tomllib_loads py_str =
    Ok (Some (Str.join Str.NL l)).
Proof.
  intros Hr Hl Ht Hc Hm. unfold get_pyproject_settings.
  rewrite Hr. simpl. rewrite Hl. simpl. rewrite Ht. simpl.
  rewrite Hc. simpl. rewrite Hm. cbn -[fmap]. by rewrite join_items_strings.
Qed.

(** A file that does not decode, or a missing key, is no value. *)
Lemma pyproject_undecodable (text : string) :
  read_pyproject = Ok text →
  tomllib_loads text = None →
  get_pyproject_settings read_pyproject tomllib_loads py_str = Ok None.
Proof.
  intros Hr Hl. unfold get_pyproject_settings. rewrite Hr. simpl.
  by rewrite Hl.
Qed.

Lemma pyproject_no_tool (text : string) (content : list (string * toml)) :
  read_pyproject = Ok text →
  tomllib_loads text = Some content →
  Dict.get "tool" content = None →
  get_pyproject_settings read_pyproject tomllib_loads py_str = Ok None.
Proof.
  intros Hr Hl Ht. unfold get_pyproject_settings. rewrite Hr. simpl.
  rewrite Hl. simpl. by rewrite Ht.
Qed.

End ResolverFacts.

(** C2: the precedence holds as long as [pyproject.toml] can be read
    ([resolve_override], [resolve_fallback]). Without an override and
    without the file, the error of [open] is not caught in
    [get_pyproject_settings]: [finalize_options] raises it, and not the
    configuration-missing error. *)
Theorem missing_pyproject_raises_oserror
    (tomllib_loads : string → option (list (string * toml)))
    (py_str : toml → string) (attrs : list string)
    (complete : record → result record) (msg : string) :
  let no_file := Raise (OSError msg) in
  finalize_options no_file tomllib_loads py_str attrs complete None
    = Raise (OSError msg) ∧
  finalize_options no_file tomllib_loads py_str attrs complete (Some "")
    = Raise (OSError msg) ∧
  finalize_options no_file tomllib_loads py_str attrs complete None
    ≠ Raise option_required.
Proof. by split_and!. Qed.

(** ** The generation dispatcher *)

Section DispatcherFacts.

Context {World ParserHandle ManpageObject Writer : Type}.
Variable get_parser :
  value → value → value → value → option value →
  World → result ParserHandle * World.
Variable Manpage :
  ParserHandle → value → record → World → result ManpageObject * World.
Variable manpage_str : ManpageObject → World → result string * World.
Variable write_to_filename : string → string → World → result unit * World.
Variable ManPageWriter :
  ParserHandle → record → World → result Writer * World.
Variable writer_write : Writer → string → World → result unit * World.
Variable repr_list : list string → string.

#[local] Abbreviation run_with :=
  (run World ParserHandle ManpageObject Writer get_parser Manpage
     manpage_str write_to_filename ManPageWriter writer_write repr_list).

(** C1: in a run over records of which [(page, data)] is the first with
    a true [manfile], all that comes after the records before it is the
    notice for [page]: the run ends well in the state those records have
    left, with the one printed line more in the trace, so without a call
    of a collaborator for [page] or for a later record, whatever the
    later records are. If a record before it raises, the run ends
    there. *)
Theorem run_stops_at_first_manfile (pre post : Dict.t record)
    (page : string) (data : record) (s : state World) :
  Forall (λ item, manfile_truthy item.2 = false) pre →
  manfile_truthy data = true →
  run_with (pre ++ (page, data) :: post) s =
    match run_with pre s with
    | (Ok _, s') => (Ok tt, noticed page s')
    | (Raise e, s') => (Raise e, s')
    end.
Proof.
  intros Hpre Hdata. revert s.
  induction pre as [|[p d] pre IH]; intros s.
  - simpl. by rewrite Hdata.
  - apply Forall_cons in Hpre as [Hd Hpre]. simpl in Hd.
    simpl. rewrite Hd.
    unfold mbind, M_bind, bind.
    destruct (generate _ _ _ _ _ _ _ _ _ _ _ _ _ s) as [[u|e] s1];
      [apply (IH Hpre)|done].
Qed.

End DispatcherFacts.

Lemma run_stops_at_first_manfile_witness :
  let generated : record :=
    {[ "objtype" := VStr "function"; "objname" := VStr "main";
       "import_type" := VStr "module"; "import_from" := VStr "foo" ]} in
  let written : record := {[ "manfile" := VStr "b.1" ]} in
  Toy.run [("a.1", generated); ("b.1", written); ("c.1", generated)]
    (State [] []) =
    (Ok tt,
     State ["a.1"]
       [Print "generating a.1";
        CallGetParser (VStr "module") (VStr "foo") (VStr "main")
          (VStr "function") None;
        CallManpage (VStr "pretty") generated;
        CallStr;
        CallWriteToFilename ".TH" "a.1";
        Print "using pre-written b.1"]).
Proof.
  intros generated written.
  etrans.
  - apply (run_stops_at_first_manfile Toy.get_parser Toy.Manpage
             Toy.manpage_str Toy.write_to_filename Toy.ManPageWriter
             Toy.writer_write Toy.repr_list
             [("a.1", generated)] [("c.1", generated)] "b.1" written).
    + repeat constructor.
    + reflexivity.
  - reflexivity.
Defined.

(** * Further properties of the module *)

(** ** The text around the lines *)

Lemma lstrip_all_space (ws : string) :
  all_space ws = true → Str.lstrip ws = "".
Proof.
  induction ws as [|c ws IH]; [done|]. simpl.
  intros [Hc Hws]%andb_true_iff. by rewrite Hc, IH.
Qed.

Lemma lstrip_app (s t : string) :
  Str.lstrip (s +:+ t) =
    if all_space s then Str.lstrip t else Str.lstrip s +:+ t.
Proof.
  induction s as [|c s IH]; [done|]. simpl.
  destruct (Str.isspace c); [exact IH|done].
Qed.

Lemma strip_space_frame (ws1 ws2 s : string) :
  all_space ws1 = true → all_space ws2 = true →
  Str.strip (ws1 +:+ s +:+ ws2) = Str.strip s.
Proof.
  intros H1 H2. unfold Str.strip.
  rewrite lstrip_space_app by done. rewrite lstrip_app.
  destruct (all_space s) eqn:Hs.
  - by rewrite !lstrip_all_space.
  - by apply rstrip_app_space.
Qed.

Lemma strip_solid (s : string) :
  starts_solid s = true → ends_solid s = true → Str.strip s = s.
Proof.
  intros Hs He. unfold Str.strip. rewrite lstrip_solid by done.
  by apply rstrip_solid.
Qed.

(** X1: whitespace before and after the text, empty lines among it, does
    not change what the text parses to. *)
Theorem parse_ignores_outer_whitespace (attrs : list string)
    (ws1 ws2 text : string) :
  all_space ws1 = true →
  all_space ws2 = true →
  parse_manpages_spec attrs (ws1 +:+ text +:+ ws2) =
    parse_manpages_spec attrs text.
Proof.
  intros H1 H2. unfold parse_manpages_spec.
  by rewrite strip_space_frame.
Qed.

Lemma parse_ignores_outer_whitespace_witness :
  parse_manpages_spec []
    ((Str.NL +:+ "  ") +:+ "a.1:module=x" +:+ (" " +:+ Str.NL)) =
    parse_manpages_spec [] "a.1:module=x".
Proof.
  apply (parse_ignores_outer_whitespace [] (Str.NL +:+ "  ")
           (" " +:+ Str.NL) "a.1:module=x");
    reflexivity.
Defined.

(** ** A list of lines *)

Lemma split_join_lines (l : list string) :
  l ≠ [] →
  Forall (λ line, Str.contains Str.LF line = false) l →
  Str.split Str.LF (Str.join Str.NL l) = l.
Proof.
  induction l as [|x l IH]; [done|]. intros _ Hall.
  apply Forall_cons in Hall as [Hx Hall].
  destruct l as [|y l]; [by apply split_no_sep|].
  change (Str.join Str.NL (x :: y :: l))
    with (x +:+ String Str.LF (Str.join Str.NL (y :: l))).
  rewrite split_app_sep, (split_no_sep _ _ Hx), IH; done.
Qed.

Lemma join_starts_solid (l : list string) :
  starts_solid (hd "" l) = true →
  starts_solid (Str.join Str.NL l) = true.
Proof.
  destruct l as [|x l]; [done|]. simpl hd. intros Hx.
  destruct l as [|y l]; [done|].
  change (Str.join Str.NL (x :: y :: l))
    with (x +:+ String Str.LF (Str.join Str.NL (y :: l))).
  by destruct x.
Qed.

Lemma join_ends_solid (l : list string) :
  ends_solid (List.last l "") = true →
  ends_solid (Str.join Str.NL l) = true.
Proof.
  induction l as [|x l IH]; [done|].
  destruct l as [|y l]; [done|]. intros Hlast.
  change (Str.join Str.NL (x :: y :: l))
    with (x +:+ String Str.LF (Str.join Str.NL (y :: l))).
  apply ends_solid_app.
  change (String Str.LF ?s) with (Str.NL +:+ s).
  apply ends_solid_app. by apply IH.
Qed.

Lemma parse_joined_lines (attrs : list string) (l : list string) :
  Forall (λ line, Str.contains Str.LF line = false) l →
  starts_solid (hd "" l) = true →
  ends_solid (List.last l "") = true →
  parse_manpages_spec attrs (Str.join Str.NL l) = parse_specs attrs [] l.
Proof.
  intros Hall Hs He. unfold parse_manpages_spec.
  rewrite strip_solid by auto using join_starts_solid, join_ends_solid.
  rewrite split_join_lines; [done| |done]. by destruct l.
Qed.

(** X2: with the value of [tool.build_manpages.manpages] a list of
    strings in a readable [pyproject.toml], and no override, the items of
    the list are the lines that are parsed, one declaration each (the
    items have no line feed inside and the list has no whitespace at its
    two ends). *)
Theorem pyproject_list_items_are_lines
    (tomllib_loads : string → option (list (string * toml)))
    (py_str : toml → string) (attrs : list string)
    (complete : record → result record) (text : string)
    (content tool cmd : list (string * toml)) (l : list string) :
  tomllib_loads text = Some content →
  Dict.get "tool" content = Some (TTable tool) →
  Dict.get DEFAULT_CMD_NAME tool = Some (TTable cmd) →
  Dict.get "manpages" cmd = Some (TArray (TString <$> l)) →
  Forall (λ line, Str.contains Str.LF line = false) l →
  starts_solid (hd "" l) = true →
  ends_solid (List.last l "") = true →
  finalize_options (Ok text) tomllib_loads py_str attrs complete None =
    parse_specs attrs [] l ≫= complete_records complete.
Proof.
  intros Hl Ht Hc Hm Hall Hs He. unfold finalize_options.
  rewrite resolve_fallback by auto.
  rewrite (pyproject_list (Ok text) tomllib_loads py_str text l content
             tool cmd eq_refl Hl Ht Hc Hm).
  assert (String.eqb (Str.join Str.NL l) "" = false) as Hne.
  { pose proof (join_starts_solid l Hs) as Hj.
    by destruct (Str.join Str.NL l). }
  cbn [mbind result_bind]. rewrite Hne. cbn [mbind result_bind].
  by rewrite parse_joined_lines.
Qed.

Lemma pyproject_list_items_are_lines_witness :
  let cmd := [("manpages",
               TArray [TString "a.1:module=x"; TString "b.1:module=y"])] in
  let content := [("tool", TTable [("build_manpages", TTable cmd)])] in
  finalize_options (Ok "toml") (λ _, Some content) (λ _, "") [] Ok None =
    Ok [("a.1", {[ "import_type" := VStr "module";
                   "import_from" := VStr "x" ]});
        ("b.1", {[ "import_type" := VStr "module";
                   "import_from" := VStr "y" ]})].
Proof.
  intros cmd content.
  rewrite (pyproject_list_items_are_lines (λ _, Some content) (λ _, "") []
             Ok "toml" content [("build_manpages", TTable cmd)] cmd
             ["a.1:module=x"; "b.1:module=y"]);
    try reflexivity.
  repeat constructor.
Defined.

(** ** The order of the mapping *)

Lemma set_fresh {V} (k : string) (v : V) (d : Dict.t V) :
  k ∉ Dict.keys d → Dict.set k v d = d ++ [(k, v)].
Proof.
  unfold Dict.keys. induction d as [|[k' v'] d IH]; [done|].
  rewrite fmap_cons, not_elem_of_cons. simpl. intros [Hne Hk].
  apply not_eq_sym, String.eqb_neq in Hne. by rewrite Hne, IH.
Qed.

Lemma parse_specs_distinct (attrs : list string) (specs : list string)
    (m0 m : Dict.t record) :
  parse_specs attrs m0 specs = Ok m →
  NoDup (outputfile_of <$> specs) →
  (∀ s, s ∈ specs → outputfile_of s ∉ Dict.keys m0) →
  ∃ items, m = m0 ++ items ∧
           Forall2 (λ spec item, parse_spec attrs spec = Ok item) specs items.
Proof.
  revert m0. induction specs as [|s specs IH]; intros m0 H Hnd Hfresh.
  - simpl in H. simplify_eq. exists []. by rewrite app_nil_r.
  - simpl in H. inv_bind H. destruct a as [f d].
    pose proof (parse_spec_outputfile _ _ _ _ Hstep) as ->.
    rewrite fmap_cons in Hnd. apply NoDup_cons in Hnd as [Hs Hnd].
    rewrite set_fresh in H by (apply Hfresh, elem_of_cons; auto).
    destruct (IH _ H Hnd) as (items & -> & Hitems).
    + intros s' Hs'. unfold Dict.keys. rewrite fmap_app, not_elem_of_app.
      split; [apply Hfresh, elem_of_cons; auto|].
      intros Heq%list_elem_of_singleton. apply Hs. simpl in Heq.
      rewrite <- Heq. by apply list_elem_of_fmap_2.
    + exists ((outputfile_of s, d) :: items).
      rewrite <- app_assoc. split; [done|]. by constructor.
Qed.

(** X3: when no two lines declare one output file, the mapping of a text
    that parses has one entry for each line, in the order of the lines:
    the output file and the record of that line. *)
Theorem distinct_files_keep_line_order (attrs : list string) (text : string)
    (m : Dict.t record) :
  parse_manpages_spec attrs text = Ok m →
  NoDup (outputfile_of <$> Str.split Str.LF (Str.strip text)) →
  Forall2 (λ spec item, parse_spec attrs spec = Ok item)
    (Str.split Str.LF (Str.strip text)) m.
Proof.
  unfold parse_manpages_spec. intros H Hnd.
  destruct (parse_specs_distinct _ _ _ _ H Hnd) as (items & -> & Hitems);
    [|done].
  intros s _. apply not_elem_of_nil.
Qed.

Lemma distinct_files_keep_line_order_witness :
  let text := "b.1:module=y" +:+ Str.NL +:+ "a.1:module=x" in
  ∃ m, parse_manpages_spec [] text = Ok m ∧
       Dict.keys m = ["b.1"; "a.1"] ∧
       Forall2 (λ spec item, parse_spec [] spec = Ok item)
         ["b.1:module=y"; "a.1:module=x"] m.
Proof.
  intros text. eexists. split; [reflexivity|]. split; [reflexivity|].
  apply (distinct_files_keep_line_order [] text); [reflexivity|].
  vm_compute. repeat constructor; rewrite ?elem_of_cons, ?elem_of_nil;
    intros H; repeat destruct H as [H|H]; done.
Defined.

(** ** The shape of the records and the errors of the parser *)

Lemma unpack_option_shapes (option : string) :
  match unpack_option option with
  | Ok _ => True
  | Raise e => parse_error e
  end.
Proof.
  unfold unpack_option.
  by destruct (Str.split "=" option) as [|p1 [|p2 [|p3 pieces]]].
Qed.

(** Closes the side conditions of an insertion into a well-shaped
    record. *)
Ltac field_ok :=
  split;
  [ first [ reflexivity
          | by (apply negb_true_iff, String.eqb_neq) ]
  | first [ by left; unfold parser_fields; rewrite !elem_of_cons; auto 10
          | by right ] ].

Section Shapes.

Variable attrs : list string.

Lemma record_ok_insert (d : record) (k : string) (v : value) :
  record_ok attrs d →
  field_shape_ok k v = true ∧ (k ∈ parser_fields ∨ k ∈ attrs) →
  record_ok attrs (<[k := v]> d).
Proof. intros Hd Hkv. by apply map_Forall_insert_2. Qed.

Lemma record_ok_authors (d : record) (s : string) :
  record_ok attrs d → d !! "authors" ≠ Some (VStr s).
Proof. intros Hd Hs. by destruct (Hd _ _ Hs) as [? _]. Qed.

Lemma apply_option_shapes (d : record) (oname ovalue : string) :
  record_ok attrs d →
  match apply_option attrs d oname ovalue with
  | Ok d' => record_ok attrs d'
  | Raise e => parse_error e
  end.
Proof.
  intros Hd. unfold apply_option, append_author.
  case_oname; rewrite ?andb_false_r, ?andb_true_r;
    cbn [negb py_assert mbind result_bind].
  1-5: destruct (has_key _ d); cbn [negb py_assert mbind result_bind];
    [done|]; by repeat (apply record_ok_insert; [|field_ok]).
  - destruct (d !! "authors") as [[s|l]|] eqn:Ha.
    + by apply record_ok_authors in Ha.
    + apply record_ok_insert; [done|]. split; [by destruct l|].
      left. unfold parser_fields. rewrite !elem_of_cons. auto 10.
    + apply record_ok_insert; [done|]. field_ok.
  - by exists "authors".
  - destruct (bool_decide (oname ∈ attrs)) eqn:Hin; [|by exists oname].
    apply bool_decide_eq_true in Hin.
    destruct (has_key oname d); cbn [negb py_assert mbind result_bind];
      [done|].
    apply record_ok_insert; [done|]. field_ok.
Qed.

Lemma parse_options_shapes (options : list string) (d : record) :
  record_ok attrs d →
  match parse_options attrs d options with
  | Ok d' => record_ok attrs d'
  | Raise e => parse_error e
  end.
Proof.
  revert d. induction options as [|o options IH]; intros d Hd; [done|].
  simpl. unfold parse_option.
  pose proof (unpack_option_shapes o) as Ho.
  destruct (unpack_option o) as [[oname ovalue]|e]; [|done].
  cbn [mbind result_bind].
  pose proof (apply_option_shapes d oname ovalue Hd) as Ha.
  destruct (apply_option attrs d oname ovalue) as [d'|e]; [|done].
  by apply IH.
Qed.

Lemma parse_spec_shapes (spec : string) :
  match parse_spec attrs spec with
  | Ok item => record_ok attrs item.2
  | Raise e => parse_error e
  end.
Proof.
  unfold parse_spec. destruct (Str.split ":" spec) as [|o options]; [done|].
  pose proof (parse_options_shapes options ∅ (map_Forall_empty _)) as H.
  by destruct (parse_options attrs ∅ options).
Qed.

Lemma Forall_set {V} (P : string * V → Prop) (k : string) (v : V)
    (d : Dict.t V) :
  (∀ k', P (k', v)) → Forall P d → Forall P (Dict.set k v d).
Proof.
  intros Hv. induction 1 as [|[k' v'] d Hx Hd IH]; simpl.
  - by constructor.
  - destruct (String.eqb k' k); by constructor.
Qed.

Lemma parse_specs_shapes (specs : list string) (m : Dict.t record) :
  Forall (λ item, record_ok attrs item.2) m →
  match parse_specs attrs m specs with
  | Ok m' => Forall (λ item, record_ok attrs item.2) m'
  | Raise e => parse_error e
  end.
Proof.
  revert m. induction specs as [|s specs IH]; intros m Hm; [done|].
  simpl. pose proof (parse_spec_shapes s) as Hs.
  destruct (parse_spec attrs s) as [[f d]|e]; [|done].
  cbn [mbind result_bind]. apply IH. by apply Forall_set.
Qed.

End Shapes.

(** X4: in every record of a parsed mapping, [authors] (when there) is a
    list with at least one element and every other field is a string; the
    field names are those that the parser writes itself or names of the
    allow-list. *)
Theorem parsed_records_well_formed (attrs : list string) (text : string)
    (m : Dict.t record) (page : string) (d : record) (k : string)
    (v : value) :
  parse_manpages_spec attrs text = Ok m →
  (page, d) ∈ m →
  d !! k = Some v →
  (k = "authors" → ∃ l, v = VList l ∧ l ≠ []) ∧
  (k ≠ "authors" → ∃ s, v = VStr s) ∧
  (k ∈ parser_fields ∨ k ∈ attrs).
Proof.
  unfold parse_manpages_spec. intros H Hin Hk.
  pose proof (parse_specs_shapes attrs
                (Str.split Str.LF (Str.strip text)) [] (Forall_nil_2 _)) as Hm.
  rewrite H in Hm. rewrite Forall_forall in Hm.
  destruct (Hm _ Hin _ _ Hk) as [Hshape Hname].
  split_and!; [| |done].
  - intros ->. destruct v as [s|l]; [done|]. exists l. split; [done|].
    simpl in Hshape. by intros ->.
  - intros Hne%String.eqb_neq. destruct v as [s|l]; [by exists s|].
    simpl in Hshape. by rewrite Hne in Hshape.
Qed.

Lemma parsed_records_well_formed_witness :
  ∃ l, VList ["X"] = VList l ∧ l ≠ [].
Proof.
  eapply (parsed_records_well_formed ["url"] "a.1:url=u:author=X"
            [("a.1", {[ "url" := VStr "u"; "authors" := VList ["X"] ]})]
            "a.1" {[ "url" := VStr "u"; "authors" := VList ["X"] ]}
            "authors" (VList ["X"])).
  - reflexivity.
  - apply list_elem_of_singleton. reflexivity.
  - reflexivity.
  - reflexivity.
Defined.

(** X5: a parse that fails raises the assertion error of a duplicate, the
    unpacking error of a token that has not one equals sign, or the
    [ValueError] of an unknown option; nothing else (no [KeyError], no
    [AttributeError] from the [append] on [authors]). *)
Theorem parser_raises_only_its_errors (attrs : list string) (text : string)
    (e : exn) :
  parse_manpages_spec attrs text = Raise e →
  e = AssertionError ∨
  (∃ got, e = UnpackError got ∧ got ≠ 2) ∨
  (∃ oname,
     e = ValueError ("Unknown manpage configuration option: " +:+ oname)).
Proof.
  unfold parse_manpages_spec. intros H.
  pose proof (parse_specs_shapes attrs
                (Str.split Str.LF (Str.strip text)) [] (Forall_nil_2 _)) as Hm.
  rewrite H in Hm. destruct e; simpl in Hm; try done.
  - by left.
  - right. right. destruct Hm as [oname ->]. by exists oname.
  - right. left. by exists got.
Qed.

Lemma parser_raises_only_its_errors_witness :
  UnpackError 1 = AssertionError ∨
  (∃ got, UnpackError 1 = UnpackError got ∧ got ≠ 2) ∨
  (∃ oname,
     UnpackError 1 =
       ValueError ("Unknown manpage configuration option: " +:+ oname)).
Proof.
  apply (parser_raises_only_its_errors [] "a.1:function"). reflexivity.
Defined.

(** ** Fields that stay as the line gives them *)

Section Kept.

Variable attrs : list string.

(** A field other than [authors] that is there keeps its value through
    an accepted option, when the branch that could assign it again is
    closed: [objname] with [objtype] there, [import_from] and [prog] with
    [import_type] there. *)
Lemma apply_option_keeps_field (d d' : record) (oname ovalue k : string)
    (v : value) :
  apply_option attrs d oname ovalue = Ok d' →
  d !! k = Some v →
  k ≠ "authors" →
  (k = "objname" → is_Some (d !! "objtype")) →
  (k = "import_from" ∨ k = "prog" → is_Some (d !! "import_type")) →
  d' !! k = Some v.
Proof.
  intros H Hk Hau Hobj Himp. unfold apply_option, append_author in H.
  assert (∀ k', d !! k' = None → k' ≠ k) as Hfresh
    by (intros k' Hn ->; congruence).
  assert (∀ k', has_key k' d = false → k' ≠ k) as Hfresh'
    by (intros k' Hn%has_key_false; auto).
  case_oname; rewrite ?andb_false_r, ?andb_true_r in H; try done.
  1-5: destruct (has_key _ d) eqn:Hhas;
    cbn [negb py_assert mbind result_bind] in H; [done|];
    simplify_eq; rewrite !lookup_insert_ne; auto;
    intros <-; apply has_key_false in Hhas;
    first [ destruct Hobj as [? ?]; [done|congruence]
          | destruct Himp as [? ?]; [auto|congruence] ].
  - destruct (d !! "authors") as [[s|l]|]; simplify_eq;
      by rewrite lookup_insert_ne.
  - destruct (bool_decide (oname ∈ attrs)); [|done].
    destruct (has_key oname d) eqn:Hhas;
      cbn [negb py_assert mbind result_bind] in H; [done|].
    simplify_eq. rewrite lookup_insert_ne; auto.
Qed.

Lemma parse_options_keeps_field (options : list string) (d d' : record)
    (k : string) (v : value) :
  parse_options attrs d options = Ok d' →
  d !! k = Some v →
  k ≠ "authors" →
  (k = "objname" → is_Some (d !! "objtype")) →
  (k = "import_from" ∨ k = "prog" → is_Some (d !! "import_type")) →
  d' !! k = Some v.
Proof.
  revert d. induction options as [|o options IH];
    intros d H Hk Hau Hobj Himp.
  - simpl in H. by simplify_eq.
  - simpl in H. inv_bind H. unfold parse_option in Hstep. inv_bind Hstep.
    destruct a0 as [oname ovalue].
    apply (IH a H); [|done| |].
    + exact (apply_option_keeps_field d a oname ovalue k v Hstep Hk Hau
               Hobj Himp).
    + intros Heq.
      exact (apply_option_keeps_keys attrs d a oname ovalue _ Hstep
               (Hobj Heq)).
    + intros Heq.
      exact (apply_option_keeps_keys attrs d a oname ovalue _ Hstep
               (Himp Heq)).
Qed.

(** What an accepted option leaves under the names it writes. *)
Lemma apply_option_object (d d' : record) (oname ovalue : string) :
  oname = "function" ∨ oname = "object" →
  apply_option attrs d oname ovalue = Ok d' →
  d' !! "objtype" = Some (VStr oname) ∧ d' !! "objname" = Some (VStr ovalue).
Proof.
  unfold apply_option. intros [-> | ->] H;
    cbn [String.eqb Ascii.eqb Bool.eqb orb] in H;
    inv_bind H; simplify_eq; split; by simplify_map_eq.
Qed.

Lemma apply_option_module (d d' : record) (ovalue : string) :
  apply_option attrs d "module" ovalue = Ok d' →
  d' !! "import_type" = Some (VStr "module") ∧
  d' !! "import_from" = Some (VStr ovalue).
Proof.
  unfold apply_option. cbn [String.eqb Ascii.eqb Bool.eqb orb].
  intros H. inv_bind H. cbv zeta in H. simplify_eq.
  split; by simplify_map_eq.
Qed.

Lemma apply_option_plain (d d' : record) (oname ovalue : string) :
  oname ∉ ["function"; "object"; "pyfile"; "module"; "author"] →
  apply_option attrs d oname ovalue = Ok d' →
  d' !! oname = Some (VStr ovalue).
Proof.
  rewrite !not_elem_of_cons. intros (? & ? & ? & ? & ? & _).
  unfold apply_option. intros Hok.
  case_oname; try done; rewrite ?andb_false_r, ?andb_true_r in Hok;
    try done.
  - inv_bind Hok. simplify_eq. by rewrite lookup_insert_eq.
  - destruct (bool_decide _); [|done]. inv_bind Hok. simplify_eq.
    by rewrite lookup_insert_eq.
Qed.

(** From the option to the end of the line. *)
Lemma parse_options_from (options : list string) (d0 d : record)
    (option : string) :
  parse_options attrs d0 options = Ok d →
  option ∈ options →
  ∃ d1 d2 rest,
    parse_option attrs d1 option = Ok d2 ∧
    parse_options attrs d2 rest = Ok d.
Proof.
  revert d0. induction options as [|o options IH]; intros d0 H Hin.
  - by apply elem_of_nil in Hin.
  - simpl in H. inv_bind H. apply elem_of_cons in Hin as [->|Hin].
    + by exists d0, a, options.
    + by apply (IH a).
Qed.

End Kept.

(** X6: the record of a line that parses and has a [function] or
    [object] option holds the name of the option as [objtype] and its
    value as [objname], whatever else the line gives. *)
Theorem object_option_sets_objtype (attrs : list string)
    (spec outputfile : string) (d : record) (option oname ovalue : string) :
  parse_spec attrs spec = Ok (outputfile, d) →
  option ∈ tail (Str.split ":" spec) →
  unpack_option option = Ok (oname, ovalue) →
  oname = "function" ∨ oname = "object" →
  d !! "objtype" = Some (VStr oname) ∧ d !! "objname" = Some (VStr ovalue).
Proof.
  unfold parse_spec. intros H Hin Hun Hname.
  destruct (Str.split ":" spec) as [|o options]; [done|].
  inv_bind H. simplify_eq. simpl in Hin.
  destruct (parse_options_from attrs _ _ _ _ Hstep Hin)
    as (d1 & d2 & rest & Hopt & Hrest).
  rewrite (parse_option_unpack _ _ _ _ _ Hun) in Hopt.
  destruct (apply_option_object attrs _ _ _ _ Hname Hopt) as [Ht Hn].
  split; eapply parse_options_keeps_field; eauto; try done.
  all: intros [?|?]; done.
Qed.

Lemma object_option_sets_objtype_witness :
  ∃ d, parse_spec ["objname"] "a.1:objname=early:object=parser:module=m"
       = Ok ("a.1", d) ∧
       d !! "objtype" = Some (VStr "object") ∧
       d !! "objname" = Some (VStr "parser").
Proof.
  eexists. split; [reflexivity|].
  eapply (object_option_sets_objtype ["objname"]
            "a.1:objname=early:object=parser:module=m" "a.1" _
            "object=parser" "object" "parser").
  - reflexivity.
  - compute_done.
  - reflexivity.
  - by right.
Defined.

(** X7: the record of a line that parses and has a [module] option holds
    [import_type = "module"] and the value of the option as
    [import_from]. *)
Theorem module_option_sets_import (attrs : list string)
    (spec outputfile : string) (d : record) (option ovalue : string) :
  parse_spec attrs spec = Ok (outputfile, d) →
  option ∈ tail (Str.split ":" spec) →
  unpack_option option = Ok ("module", ovalue) →
  d !! "import_type" = Some (VStr "module") ∧
  d !! "import_from" = Some (VStr ovalue).
Proof.
  unfold parse_spec. intros H Hin Hun.
  destruct (Str.split ":" spec) as [|o options]; [done|].
  inv_bind H. simplify_eq. simpl in Hin.
  destruct (parse_options_from attrs _ _ _ _ Hstep Hin)
    as (d1 & d2 & rest & Hopt & Hrest).
  rewrite (parse_option_unpack _ _ _ _ _ Hun) in Hopt.
  destruct (apply_option_module attrs _ _ _ Hopt) as [Ht Hf].
  split; eapply parse_options_keeps_field; eauto; try done.
Qed.

Lemma module_option_sets_import_witness :
  ∃ d, parse_spec [] "a.1:function=main:module=pkg.cli:format=old"
       = Ok ("a.1", d) ∧
       d !! "import_type" = Some (VStr "module") ∧
       d !! "import_from" = Some (VStr "pkg.cli").
Proof.
  eexists. split; [reflexivity|].
  eapply (module_option_sets_import []
            "a.1:function=main:module=pkg.cli:format=old" "a.1" _
            "module=pkg.cli" "pkg.cli").
  - reflexivity.
  - compute_done.
  - reflexivity.
Defined.

(** X8: the record of a line that parses holds, under the name of a
    [format] option or of an option of the allow-list, the value of that
    option; the names [objname], [import_from] and [prog] are left out,
    as a later [function], [object], [pyfile] or [module] option assigns
    them again. *)
Theorem plain_option_sets_its_field (attrs : list string)
    (spec outputfile : string) (d : record) (option oname ovalue : string) :
  parse_spec attrs spec = Ok (outputfile, d) →
  option ∈ tail (Str.split ":" spec) →
  unpack_option option = Ok (oname, ovalue) →
  oname ∉ ["function"; "object"; "pyfile"; "module"; "author"] →
  oname ∉ rewritable_fields →
  d !! oname = Some (VStr ovalue).
Proof.
  unfold parse_spec, rewritable_fields. intros H Hin Hun Hsp Hrw.
  rewrite !not_elem_of_cons in Hrw. destruct Hrw as (? & ? & ? & _).
  destruct (Str.split ":" spec) as [|o options]; [done|].
  inv_bind H. simplify_eq. simpl in Hin.
  destruct (parse_options_from attrs _ _ _ _ Hstep Hin)
    as (d1 & d2 & rest & Hopt & Hrest).
  rewrite (parse_option_unpack _ _ _ _ _ Hun) in Hopt.
  pose proof (apply_option_plain attrs _ _ _ _ Hsp Hopt) as Hset.
  eapply parse_options_keeps_field; eauto; try done.
  - intros ->. unfold apply_option in Hopt. simpl in Hopt.
    by rewrite andb_false_r in Hopt.
  - intros [?|?]; done.
Qed.

Lemma plain_option_sets_its_field_witness :
  ∃ d, parse_spec ["manual_section"; "manfile"]
         "a.1:manual_section=8:function=main:module=m"
       = Ok ("a.1", d) ∧
       d !! "manual_section" = Some (VStr "8").
Proof.
  eexists. split; [reflexivity|].
  eapply (plain_option_sets_its_field ["manual_section"; "manfile"]
            "a.1:manual_section=8:function=main:module=m" "a.1" _
            "manual_section=8" "manual_section" "8").
  - reflexivity.
  - compute_done.
  - reflexivity.
  - compute_done.
  - unfold rewritable_fields. compute_done.
Defined.

(** ** Tokens without one equals sign *)

(** X9: a text with an option token that has no equals sign, or more
    than one, is never parsed to a mapping; when the parse gets to the
    token, it stops with the error of the unpacking, which got one piece
    more than the token has equals signs. *)
Theorem malformed_option_aborts (attrs : list string) (text : string)
    (prev pre : list string) (option : string) :
  has_option_after text prev pre option →
  Str.count "=" option ≠ 1 →
  is_ok (parse_manpages_spec attrs text) = false ∧
  ∀ m d,
    parse_specs attrs [] prev = Ok m →
    parse_options attrs ∅ pre = Ok d →
    parse_manpages_spec attrs text =
      Raise (UnpackError (S (Str.count "=" option))).
Proof.
  intros Hat Hcount. split.
  - apply (parse_never_ok _ _ _ _ _ Hat). intros d.
    by rewrite parse_option_unpack_error.
  - intros m d Hprev Hpre.
    apply (parse_fails_at _ _ _ _ _ _ _ _ Hat Hprev Hpre).
    by apply parse_option_unpack_error.
Qed.

Lemma malformed_option_aborts_witness :
  is_ok (parse_manpages_spec [] "a.1:function=main:module") = false ∧
  parse_manpages_spec [] "a.1:function=main:module" = Raise (UnpackError 1).
Proof.
  assert (has_option_after "a.1:function=main:module" []
            ["function=main"] "module") as Hat.
  { by exists "a.1:function=main:module", [], "a.1", []. }
  destruct (malformed_option_aborts [] "a.1:function=main:module" []
              ["function=main"] "module" Hat) as [Hno Hat'].
  - by vm_compute.
  - split; [exact Hno|]. by eapply Hat'.
Defined.

(** ** The settings resolver *)

Section ResolverMore.

Variable read_pyproject : result string.
Variable tomllib_loads : string → option (list (string * toml)).
Variable py_str : toml → string.

Lemma resolve_chosen (manpages : option string) (text : string) :
  resolve_manpages read_pyproject tomllib_loads py_str manpages = Ok text →
  String.eqb text "" = false.
Proof.
  unfold resolve_manpages. intros H. inv_bind H.
  destruct a as [s|]; [|done].
  destruct (String.eqb s "") eqn:Hs; [done|]. by simplify_eq.
Qed.

(** The look-up of [tool], [build_manpages], [manpages] stops with no
    value at the first table that lacks its key. *)
Lemma pyproject_key_missing (text : string)
    (content : list (string * toml)) :
  read_pyproject = Ok text →
  tomllib_loads text = Some content →
  Dict.get "tool" content = None ∨
  (∃ tool, Dict.get "tool" content = Some (TTable tool) ∧
     (Dict.get DEFAULT_CMD_NAME tool = None ∨
      ∃ cmd, Dict.get DEFAULT_CMD_NAME tool = Some (TTable cmd) ∧
             Dict.get "manpages" cmd = None)) →
  get_pyproject_settings read_pyproject tomllib_loads py_str = Ok None.
Proof.
  intros Hr Hl Hpath. unfold get_pyproject_settings.
  rewrite Hr. simpl. rewrite Hl. simpl.
  destruct Hpath as [Ht|(tool & Ht & [Hc|(cmd & Hc & Hm)])];
    rewrite Ht; simpl; [done| |]; rewrite Hc; simpl; [done|].
  by rewrite Hm.
Qed.

(** A value in the path that is not a table, and a list with an item
    that is not a string, raise a [TypeError] that is not handled. *)
Lemma subscript_not_table (obj : toml) (key : string) :
  (∀ entries, obj ≠ TTable entries) →
  ∃ msg, subscript obj key = Raise (TypeError msg).
Proof. intros Hno. destruct obj; simpl; eauto. by destruct (Hno entries). Qed.

Lemma join_items_not_strings (items : list toml) :
  (∃ item, item ∈ items ∧ ∀ s, item ≠ TString s) →
  ∃ msg, join_items items = Raise (TypeError msg).
Proof.
  intros (item & Hin & Hno). induction items as [|x items IH].
  - by apply elem_of_nil in Hin.
  - apply elem_of_cons in Hin as [<-|Hin].
    + destruct item; simpl; eauto. by destruct (Hno s).
    + destruct (IH Hin) as [msg Hmsg].
      destruct x; simpl; eauto. rewrite Hmsg. simpl. eauto.
Qed.

End ResolverMore.

(** X10: the text that the resolver hands to the parser is never empty,
    whichever source it comes from. *)
Theorem resolved_text_not_empty (read_pyproject : result string)
    (tomllib_loads : string → option (list (string * toml)))
    (py_str : toml → string) (manpages : option string) (text : string) :
  resolve_manpages read_pyproject tomllib_loads py_str manpages = Ok text →
  text ≠ "".
Proof. intros H%resolve_chosen. by apply String.eqb_neq. Qed.

Lemma resolved_text_not_empty_witness : "a.1:module=x" ≠ "".
Proof.
  apply (resolved_text_not_empty (Raise (OSError "no file")) (λ _, None)
           (λ _, "") (Some "a.1:module=x")).
  reflexivity.
Defined.

(** X11: with a non-empty override, [finalize_options] parses the
    override and does not depend on [pyproject.toml]: not on whether it
    can be read, not on what it holds. *)
Theorem override_ignores_pyproject (read1 read2 : result string)
    (loads1 loads2 : string → option (list (string * toml)))
    (str1 str2 : toml → string) (attrs : list string)
    (complete : record → result record) (text : string) :
  text ≠ "" →
  finalize_options read1 loads1 str1 attrs complete (Some text) =
    finalize_options read2 loads2 str2 attrs complete (Some text) ∧
  finalize_options read1 loads1 str1 attrs complete (Some text) =
    parse_manpages_spec attrs text ≫= complete_records complete.
Proof.
  intros Hne%String.eqb_neq. unfold finalize_options, resolve_manpages.
  rewrite Hne. simpl. by rewrite Hne.
Qed.

Lemma override_ignores_pyproject_witness :
  finalize_options (Raise (OSError "no file")) (λ _, None) (λ _, "") []
    Ok (Some "a.1:module=x") =
    Ok [("a.1", {[ "import_type" := VStr "module";
                   "import_from" := VStr "x" ]})].
Proof.
  destruct (override_ignores_pyproject (Raise (OSError "no file"))
              (Ok "") (λ _, None) (λ _, None) (λ _, "") (λ _, "") [] Ok
              "a.1:module=x") as [_ ->]; [done|reflexivity].
Defined.

(** X12: without an override, a [pyproject.toml] that is read and decoded
    but lacks [tool], or [build_manpages] in it, or [manpages] in that,
    ends [finalize_options] with the error that the option is
    required. *)
Theorem missing_key_is_option_required
    (tomllib_loads : string → option (list (string * toml)))
    (py_str : toml → string) (attrs : list string)
    (complete : record → result record) (text : string)
    (content : list (string * toml)) (manpages : option string) :
  manpages = None ∨ manpages = Some "" →
  tomllib_loads text = Some content →
  Dict.get "tool" content = None ∨
  (∃ tool, Dict.get "tool" content = Some (TTable tool) ∧
     (Dict.get DEFAULT_CMD_NAME tool = None ∨
      ∃ cmd, Dict.get DEFAULT_CMD_NAME tool = Some (TTable cmd) ∧
             Dict.get "manpages" cmd = None)) →
  finalize_options (Ok text) tomllib_loads py_str attrs complete manpages =
    Raise (DistutilsOptionError "'manpages' option is required").
Proof.
  intros Hman Hl Hpath. unfold finalize_options.
  rewrite resolve_fallback by done.
  by rewrite (pyproject_key_missing (Ok text) tomllib_loads py_str text
                content eq_refl Hl Hpath).
Qed.

Lemma missing_key_is_option_required_witness :
  finalize_options (Ok "[tool.other]")
    (λ _, Some [("tool", TTable [("other", TTable [])])]) (λ _, "") []
    Ok None =
    Raise (DistutilsOptionError "'manpages' option is required").
Proof.
  apply (missing_key_is_option_required _ _ _ _ "[tool.other]"
           [("tool", TTable [("other", TTable [])])] None).
  - by left.
  - reflexivity.
  - right. exists [("other", TTable [])]. split; [reflexivity|]. by left.
Defined.

(** X13: a [pyproject.toml] that does not decode is taken as no value:
    without an override, [finalize_options] ends with the error that the
    option is required. *)
Theorem undecodable_is_option_required
    (tomllib_loads : string → option (list (string * toml)))
    (py_str : toml → string) (attrs : list string)
    (complete : record → result record) (text : string)
    (manpages : option string) :
  manpages = None ∨ manpages = Some "" →
  tomllib_loads text = None →
  finalize_options (Ok text) tomllib_loads py_str attrs complete manpages =
    Raise (DistutilsOptionError "'manpages' option is required").
Proof.
  intros Hman Hl. unfold finalize_options.
  rewrite resolve_fallback by done.
  by rewrite (pyproject_undecodable (Ok text) tomllib_loads py_str text
                eq_refl Hl).
Qed.

Lemma undecodable_is_option_required_witness :
  finalize_options (Ok "= =") (λ _, None) (λ _, "") [] Ok (Some "") =
    Raise (DistutilsOptionError "'manpages' option is required").
Proof.
  apply (undecodable_is_option_required _ _ _ _ "= =" (Some ""));
    [by right|reflexivity].
Defined.

(** X14: the [TypeError] of a look-up in a value that is not a table, and
    of the [join] of a list with an item that is not a string, is not
    handled: without an override it leaves [finalize_options]. *)
Theorem type_errors_leave_finalize
    (tomllib_loads : string → option (list (string * toml)))
    (py_str : toml → string) (attrs : list string)
    (complete : record → result record) (text : string)
    (content tool cmd : list (string * toml)) (other : toml)
    (items : list toml) :
  tomllib_loads text = Some content →
  (Dict.get "tool" content = Some other ∧
   (∀ entries, other ≠ TTable entries)) ∨
  (Dict.get "tool" content = Some (TTable tool) ∧
   Dict.get DEFAULT_CMD_NAME tool = Some other ∧
   (∀ entries, other ≠ TTable entries)) ∨
  (Dict.get "tool" content = Some (TTable tool) ∧
   Dict.get DEFAULT_CMD_NAME tool = Some (TTable cmd) ∧
   Dict.get "manpages" cmd = Some (TArray items) ∧
   ∃ item, item ∈ items ∧ ∀ s, item ≠ TString s) →
  ∃ msg,
    finalize_options (Ok text) tomllib_loads py_str attrs complete None =
      Raise (TypeError msg).
Proof.
  intros Hl Hcase. unfold finalize_options.
  rewrite resolve_fallback by auto. unfold get_pyproject_settings.
  simpl. rewrite Hl. simpl.
  destruct Hcase as [[Ht Hno]|[(Ht & Hc & Hno)|(Ht & Hc & Hm & Hitem)]];
    rewrite Ht; simpl.
  - destruct (subscript_not_table other DEFAULT_CMD_NAME Hno) as [msg ->].
    by exists msg.
  - rewrite Hc. simpl.
    destruct (subscript_not_table other "manpages" Hno) as [msg ->].
    by exists msg.
  - rewrite Hc. simpl. rewrite Hm. simpl.
    destruct (join_items_not_strings items Hitem) as [msg ->].
    by exists msg.
Qed.

Lemma type_errors_leave_finalize_witness :
  ∃ msg,
    finalize_options (Ok "tool = 1") (λ _, Some [("tool", TInteger 1)])
      (λ _, "") [] Ok None = Raise (TypeError msg).
Proof.
  apply (type_errors_leave_finalize _ _ _ _ "tool = 1"
           [("tool", TInteger 1)] [] [] (TInteger 1) []).
  - reflexivity.
  - left. split; [reflexivity|done].
Defined.

(** ** The generation of one page, and the run as a sequence *)

(** The keys that [generate] reads with a subscript, in the order of the
    arguments of [get_parser]. *)
Lemma required_keys_cases (pre post : list string) (key : string) :
  ["import_type"; "import_from"; "objname"; "objtype"] = pre ++ key :: post →
  (pre = [] ∧ key = "import_type") ∨
  (pre = ["import_type"] ∧ key = "import_from") ∨
  (pre = ["import_type"; "import_from"] ∧ key = "objname") ∨
  (pre = ["import_type"; "import_from"; "objname"] ∧ key = "objtype").
Proof.
  intros H.
  destruct pre as [|k1 [|k2 [|k3 [|k4 [|k5 pre]]]]]; simplify_eq/=; auto 10.
Qed.

Section GenerateFacts.

Context {World ParserHandle ManpageObject Writer : Type}.
Variable get_parser :
  value → value → value → value → option value →
  World → result ParserHandle * World.
Variable Manpage :
  ParserHandle → value → record → World → result ManpageObject * World.
Variable manpage_str : ManpageObject → World → result string * World.
Variable write_to_filename : string → string → World → result unit * World.
Variable ManPageWriter :
  ParserHandle → record → World → result Writer * World.
Variable writer_write : Writer → string → World → result unit * World.
Variable repr_list : list string → string.

#[local] Abbreviation generate_with :=
  (generate World ParserHandle ManpageObject Writer get_parser Manpage
     manpage_str write_to_filename ManPageWriter writer_write repr_list).
#[local] Abbreviation run_with :=
  (run World ParserHandle ManpageObject Writer get_parser Manpage
     manpage_str write_to_filename ManPageWriter writer_write repr_list).

(** Unfolds the binds of the dispatcher's monad. *)
Ltac unfold_M :=
  unfold generate, getitem, mbind, M_bind, bind, ret, raise, emit, call.

(** X15: a record that lacks one of [import_type], [import_from],
    [objname], [objtype] (and has those before it in this order) makes
    the generation raise the [KeyError] of that key, after the notice and
    before any collaborator is called. *)
Theorem missing_field_raises_keyerror (page : string) (data : record)
    (pre post : list string) (key : string) (s : state World) :
  ["import_type"; "import_from"; "objname"; "objtype"] = pre ++ key :: post →
  Forall (λ k, is_Some (data !! k)) pre →
  data !! key = None →
  generate_with page data s =
    (Raise (KeyError key),
     State (world s) (trace s ++ [Print ("generating " +:+ page)])).
Proof.
  intros Hkeys Hpre Hkey. unfold_M. simpl.
  destruct (required_keys_cases _ _ _ Hkeys)
    as [[-> ->]|[[-> ->]|[[-> ->]|[-> ->]]]];
    repeat match goal with
      | H : Forall _ (_ :: _) |- _ =>
          apply Forall_cons in H as [[? ?] H]
      end;
    repeat match goal with
      | H : data !! _ = _ |- _ => rewrite H; clear H
      end;
    done.
Qed.

(** X16: a record with the four fields and a [format] other than
    [pretty], [single-commands-section] and [old] makes the generation
    raise the [ValueError] that names the format, after the parser has
    been resolved and before anything is rendered or written. *)
Theorem unknown_format_raises (page : string) (data : record)
    (import_type import_from objname objtype format : value)
    (parser : ParserHandle) (w : World) (s : state World) :
  data !! "import_type" = Some import_type →
  data !! "import_from" = Some import_from →
  data !! "objname" = Some objname →
  data !! "objtype" = Some objtype →
  data !! "format" = Some format →
  format ∉ [VStr "pretty"; VStr "single-commands-section"; VStr "old"] →
  get_parser import_type import_from objname objtype (data !! "prog")
    (world s) = (Ok parser, w) →
  generate_with page data s =
    (Raise (ValueError ("Unknown format: " +:+ format_value repr_list format)),
     State w
       (trace s ++
          [Print ("generating " +:+ page);
           CallGetParser import_type import_from objname objtype
             (data !! "prog")])).
Proof.
  intros Ht Hf Hn Ho Hfmt Hno Hparser.
  rewrite !not_elem_of_cons in Hno. destruct Hno as (? & ? & ? & _).
  unfold_M. rewrite Ht, Hf, Hn, Ho. cbn [world trace].
  rewrite Hparser, Hfmt. cbn [default].
  rewrite !bool_decide_eq_false_2 by done. cbn [orb world trace].
  by rewrite <- app_assoc.
Qed.

Lemma run_app (l1 l2 : Dict.t record) (s : state World) :
  Forall (λ item, manfile_truthy item.2 = false) l1 →
  run_with (l1 ++ l2) s =
    match run_with l1 s with
    | (Ok _, s') => run_with l2 s'
    | (Raise e, s') => (Raise e, s')
    end.
Proof.
  intros Hl1. revert s. induction l1 as [|[p d] l1 IH]; intros s; [done|].
  apply Forall_cons in Hl1 as [Hd Hl1]. simpl in Hd.
  simpl. rewrite Hd. unfold mbind, M_bind, bind.
  destruct (generate _ _ _ _ _ _ _ _ _ _ _ _ _ s) as [[u|e] s1];
    [apply (IH Hl1)|done].
Qed.

(** X17: over records without a true [manfile], the run of a list is the
    run of its first part and then, from the state that this leaves, the
    run of the rest; an exception in the first part ends the run there. *)
Theorem run_is_sequential (l1 l2 : Dict.t record) (s : state World) :
  Forall (λ item, manfile_truthy item.2 = false) l1 →
  run_with (l1 ++ l2) s =
    match run_with l1 s with
    | (Ok _, s') => run_with l2 s'
    | (Raise e, s') => (Raise e, s')
    end.
Proof. apply run_app. Qed.

(** X18: when the generation of a page raises, the run ends with that
    exception in the state of that moment: the records after it are not
    looked at, whatever they are. *)
Theorem run_stops_at_first_failure (pre post : Dict.t record)
    (page : string) (data : record) (s s1 s2 : state World) (e : exn) :
  Forall (λ item, manfile_truthy item.2 = false) pre →
  manfile_truthy data = false →
  run_with pre s = (Ok tt, s1) →
  generate_with page data s1 = (Raise e, s2) →
  run_with (pre ++ (page, data) :: post) s = (Raise e, s2).
Proof.
  intros Hpre Hdata Hrun Hgen. rewrite run_app, Hrun by done.
  simpl. rewrite Hdata. unfold mbind, M_bind, bind. by rewrite Hgen.
Qed.

End GenerateFacts.

Lemma missing_field_raises_keyerror_witness :
  generate Toy.World unit unit unit Toy.get_parser Toy.Manpage
    Toy.manpage_str Toy.write_to_filename Toy.ManPageWriter
    Toy.writer_write Toy.repr_list "a.1"
    {[ "import_type" := VStr "module"; "import_from" := VStr "m" ]}
    (State [] []) =
    (Raise (KeyError "objname"), State [] [Print "generating a.1"]).
Proof.
  etrans.
  - apply (missing_field_raises_keyerror Toy.get_parser Toy.Manpage
             Toy.manpage_str Toy.write_to_filename Toy.ManPageWriter
             Toy.writer_write Toy.repr_list "a.1"
             {[ "import_type" := VStr "module"; "import_from" := VStr "m" ]}
             ["import_type"; "import_from"] ["objtype"] "objname"
             (State [] [])).
    + reflexivity.
    + repeat constructor; by eexists.
    + reflexivity.
  - reflexivity.
Defined.

Lemma unknown_format_raises_witness :
  generate Toy.World unit unit unit Toy.get_parser Toy.Manpage
    Toy.manpage_str Toy.write_to_filename Toy.ManPageWriter
    Toy.writer_write Toy.repr_list "a.1"
    {[ "import_type" := VStr "module"; "import_from" := VStr "m";
       "objname" := VStr "main"; "objtype" := VStr "function";
       "format" := VStr "weird" ]}
    (State [] []) =
    (Raise (ValueError "Unknown format: weird"),
     State []
       [Print "generating a.1";
        CallGetParser (VStr "module") (VStr "m") (VStr "main")
          (VStr "function") None]).
Proof.
  etrans.
  - apply (unknown_format_raises Toy.get_parser Toy.Manpage
             Toy.manpage_str Toy.write_to_filename Toy.ManPageWriter
             Toy.writer_write Toy.repr_list "a.1"
             {[ "import_type" := VStr "module"; "import_from" := VStr "m";
                "objname" := VStr "main"; "objtype" := VStr "function";
                "format" := VStr "weird" ]}
             (VStr "module") (VStr "m") (VStr "main") (VStr "function")
             (VStr "weird") tt [] (State [] []));
      try reflexivity.
    compute_done.
  - reflexivity.
Defined.

Lemma run_is_sequential_witness :
  let ok : record :=
    {[ "objtype" := VStr "function"; "objname" := VStr "main";
       "import_type" := VStr "module"; "import_from" := VStr "foo" ]} in
  Toy.run [("a.1", ok); ("b.1", ok)] (State [] []) =
    Toy.run [("b.1", ok)] (Toy.run [("a.1", ok)] (State [] [])).2.
Proof.
  intros ok.
  etrans;
    [apply (run_is_sequential Toy.get_parser Toy.Manpage Toy.manpage_str
              Toy.write_to_filename Toy.ManPageWriter Toy.writer_write
              Toy.repr_list [("a.1", ok)] [("b.1", ok)]);
     repeat constructor|].
  reflexivity.
Defined.

Lemma run_stops_at_first_failure_witness :
  let ok : record :=
    {[ "objtype" := VStr "function"; "objname" := VStr "main";
       "import_type" := VStr "module"; "import_from" := VStr "foo" ]} in
  Toy.run [("a.1", ok); ("", ∅); ("c.1", ok)] (State [] []) =
    (Raise (KeyError "import_type"),
     State ["a.1"]
       [Print "generating a.1";
        CallGetParser (VStr "module") (VStr "foo") (VStr "main")
          (VStr "function") None;
        CallManpage (VStr "pretty") ok;
        CallStr;
        CallWriteToFilename ".TH" "a.1";
        Print "generating "]).
Proof.
  intros ok.
  eapply (run_stops_at_first_failure Toy.get_parser Toy.Manpage
            Toy.manpage_str Toy.write_to_filename Toy.ManPageWriter
            Toy.writer_write Toy.repr_list [("a.1", ok)] [("c.1", ok)]
            "" ∅ (State [] [])).
  - repeat constructor.
  - reflexivity.
  - reflexivity.
  - reflexivity.
Defined.

(** ** The two ways of writing a page *)

(** X19: for a record whose [format] is not [old], the generation does
    not depend on the legacy writer: with any two of them the result and
    the end state are the same. *)
Theorem legacy_writer_only_for_old
    {World ParserHandle ManpageObject Writer1 Writer2 : Type}
    (get_parser : value → value → value → value → option value →
                  World → result ParserHandle * World)
    (Manpage : ParserHandle → value → record → World →
               result ManpageObject * World)
    (manpage_str : ManpageObject → World → result string * World)
    (write_to_filename : string → string → World → result unit * World)
    (ManPageWriter1 : ParserHandle → record → World → result Writer1 * World)
    (writer_write1 : Writer1 → string → World → result unit * World)
    (ManPageWriter2 : ParserHandle → record → World → result Writer2 * World)
    (writer_write2 : Writer2 → string → World → result unit * World)
    (repr_list : list string → string)
    (page : string) (data : record) (s : state World) :
  data !! "format" ≠ Some (VStr "old") →
  generate World ParserHandle ManpageObject Writer1 get_parser Manpage
    manpage_str write_to_filename ManPageWriter1 writer_write1 repr_list
    page data s =
  generate World ParserHandle ManpageObject Writer2 get_parser Manpage
    manpage_str write_to_filename ManPageWriter2 writer_write2 repr_list
    page data s.
Proof.
  intros Hfmt.
  assert (bool_decide (default (VStr "pretty") (data !! "format")
                       = VStr "old") = false) as Hold.
  { apply bool_decide_eq_false_2.
    destruct (data !! "format") as [v|]; naive_solver. }
  unfold generate. by rewrite Hold.
Qed.

Lemma legacy_writer_only_for_old_witness :
  let data : record :=
    {[ "objtype" := VStr "function"; "objname" := VStr "main";
       "import_type" := VStr "module"; "import_from" := VStr "foo" ]} in
  generate Toy.World unit unit unit Toy.get_parser Toy.Manpage
    Toy.manpage_str Toy.write_to_filename Toy.ManPageWriter
    Toy.writer_write Toy.repr_list "a.1" data (State [] []) =
  generate Toy.World unit unit bool Toy.get_parser Toy.Manpage
    Toy.manpage_str Toy.write_to_filename
    (λ _ _ w, (Raise (CollaboratorError "no legacy writer"), w))
    (λ _ _ w, (Ok tt, w)) Toy.repr_list "a.1" data (State [] []).
Proof.
  intros data.
  apply (legacy_writer_only_for_old Toy.get_parser Toy.Manpage
           Toy.manpage_str Toy.write_to_filename Toy.ManPageWriter
           Toy.writer_write
           (λ _ _ w, (Raise (CollaboratorError "no legacy writer"), w))
           (λ (_ : bool) _ w, (Ok tt, w)) Toy.repr_list "a.1" data
           (State [] [])).
  done.
Defined.

(** X20: for a record whose [format] is [old], the generation does not
    depend on [Manpage], on the text of its page or on
    [write_to_filename]: the legacy writer does the writing. *)
Theorem old_format_skips_renderer
    {World ParserHandle ManpageObject1 ManpageObject2 Writer : Type}
    (get_parser : value → value → value → value → option value →
                  World → result ParserHandle * World)
    (Manpage1 : ParserHandle → value → record → World →
                result ManpageObject1 * World)
    (manpage_str1 : ManpageObject1 → World → result string * World)
    (write_to_filename1 : string → string → World → result unit * World)
    (Manpage2 : ParserHandle → value → record → World →
                result ManpageObject2 * World)
    (manpage_str2 : ManpageObject2 → World → result string * World)
    (write_to_filename2 : string → string → World → result unit * World)
    (ManPageWriter : ParserHandle → record → World → result Writer * World)
    (writer_write : Writer → string → World → result unit * World)
    (repr_list : list string → string)
    (page : string) (data : record) (s : state World) :
  data !! "format" = Some (VStr "old") →
  generate World ParserHandle ManpageObject1 Writer get_parser Manpage1
    manpage_str1 write_to_filename1 ManPageWriter writer_write repr_list
    page data s =
  generate World ParserHandle ManpageObject2 Writer get_parser Manpage2
    manpage_str2 write_to_filename2 ManPageWriter writer_write repr_list
    page data s.
Proof. intros Hfmt. unfold generate. by rewrite Hfmt. Qed.

Lemma old_format_skips_renderer_witness :
  let data : record :=
    {[ "objtype" := VStr "function"; "objname" := VStr "main";
       "import_type" := VStr "module"; "import_from" := VStr "foo";
       "format" := VStr "old" ]} in
  generate Toy.World unit unit unit Toy.get_parser Toy.Manpage
    Toy.manpage_str Toy.write_to_filename Toy.ManPageWriter
    Toy.writer_write Toy.repr_list "a.1" data (State [] []) =
  generate Toy.World unit bool unit Toy.get_parser
    (λ _ _ _ w, (Raise (CollaboratorError "no renderer"), w))
    (λ _ w, (Ok "", w)) (λ _ _ w, (Ok tt, w))
    Toy.ManPageWriter Toy.writer_write Toy.repr_list "a.1" data
    (State [] []).
Proof.
  intros data.
  apply (old_format_skips_renderer Toy.get_parser Toy.Manpage
           Toy.manpage_str Toy.write_to_filename
           (λ _ _ _ w, (Raise (CollaboratorError "no renderer"), w))
           (λ (_ : bool) w, (Ok "", w)) (λ _ _ w, (Ok tt, w))
           Toy.ManPageWriter Toy.writer_write Toy.repr_list "a.1" data
           (State [] [])).
  reflexivity.
Defined.

(** ** The pages after completion *)

Lemma complete_records_keys (complete : record → result record)
    (items items' : Dict.t record) :
  complete_records complete items = Ok items' →
  Dict.keys items' = Dict.keys items.
Proof.
  revert items'. induction items as [|[page data] items IH];
    intros items' H; simpl in H.
  - by simplify_eq.
  - inv_bind H. inv_bind H. simplify_eq.
    unfold Dict.keys in *. rewrite !fmap_cons. simpl. f_equal. by apply IH.
Qed.

(** X21: the completion of the records changes no key: the mapping that
    [finalize_options] leaves has each output file of the resolved text
    once, and nothing else. *)
Theorem finalize_keeps_declared_files (read_pyproject : result string)
    (tomllib_loads : string → option (list (string * toml)))
    (py_str : toml → string) (attrs : list string)
    (complete : record → result record) (manpages : option string)
    (text : string) (m : Dict.t record) :
  resolve_manpages read_pyproject tomllib_loads py_str manpages = Ok text →
  finalize_options read_pyproject tomllib_loads py_str attrs complete
    manpages = Ok m →
  NoDup (Dict.keys m) ∧
  ∀ f, f ∈ Dict.keys m ↔
       ∃ spec, spec ∈ Str.split Str.LF (Str.strip text) ∧
               outputfile_of spec = f.
Proof.
  intros Hres H. unfold finalize_options in H. rewrite Hres in H.
  simpl in H. inv_bind H.
  rewrite (complete_records_keys _ _ _ H).
  destruct (parse_specs_keys attrs _ _ _ Hstep (NoDup_nil_2)) as [Hnd Hkeys].
  split; [done|]. intros f. rewrite Hkeys. split; [|by right].
  intros [Hf|?]; [|done]. by apply elem_of_nil in Hf.
Qed.

Lemma finalize_keeps_declared_files_witness :
  let text := "a.1:module=x" +:+ Str.NL +:+ "a.1:module=y" in
  NoDup (Dict.keys
           [("a.1", ({[ "import_type" := VStr "module";
                        "import_from" := VStr "y";
                        "prog" := VStr "tool" ]} : record))]).
Proof.
  intros text.
  apply (finalize_keeps_declared_files (Raise (OSError "no file"))
           (λ _, None) (λ _, "") []
           (λ d, Ok (<["prog" := VStr "tool"]> d)) (Some text) text).
  - reflexivity.
  - reflexivity.
Defined.

(** ** Installation *)

Section InstallFacts.

Context {World : Type}.
Variable path_exists : string → World → bool.
Variable makedirs : string → World → result unit * World.
Variable copy : string → string → World → result unit * World.

#[local] Abbreviation copy_pages_with := (copy_pages World copy).

Lemma fs_logged (e : install_event) (w : World) (s : install_state World) :
  fs (logged e w s) = w.
Proof. reflexivity. Qed.

Lemma log_logged (e : install_event) (w : World) (s : install_state World) :
  log (logged e w s) = log s ++ [e].
Proof. reflexivity. Qed.

Lemma copy_events_cons (key : string) (keys : list string) (mandir : string) :
  copy_events (key :: keys) mandir =
    InstallPrint ("installing " +:+ key) :: CallCopy key mandir
      :: copy_events keys mandir.
Proof. reflexivity. Qed.

Lemma copy_pages_all (keys : list string) (mandir : string)
    (s : install_state World) :
  (∀ key w, key ∈ keys → ∃ w', copy key mandir w = (Ok tt, w')) →
  ∃ w', copy_pages_with keys mandir s =
          (Ok tt, InstallState w' (log s ++ copy_events keys mandir)).
Proof.
  revert s. induction keys as [|key keys IH]; intros s Hcopy.
  - exists (fs s). simpl. rewrite app_nil_r. by destruct s.
  - cbn [copy_pages]. rewrite fs_logged.
    destruct (Hcopy key (fs s)) as [w Hw]; [by left|]. rewrite Hw.
    destruct (IH (logged (CallCopy key mandir) w
                    (logged (InstallPrint ("installing " +:+ key)) (fs s) s)))
      as [w' Hw'].
    { intros k w0 Hk. apply Hcopy. by right. }
    exists w'. rewrite Hw', !log_logged, copy_events_cons.
    by rewrite <- !app_assoc.
Qed.

Lemma copy_pages_until (before after : list string) (key mandir : string)
    (e : exn) (s : install_state World) :
  (∀ k w, k ∈ before → ∃ w', copy k mandir w = (Ok tt, w')) →
  (∀ w, ∃ w', copy key mandir w = (Raise e, w')) →
  ∃ w', copy_pages_with (before ++ key :: after) mandir s =
          (Raise e,
           InstallState w'
             (log s ++ copy_events before mandir ++
                [InstallPrint ("installing " +:+ key); CallCopy key mandir])).
Proof.
  revert s. induction before as [|k before IH]; intros s Hcopy Hfail.
  - cbn [app copy_pages]. rewrite fs_logged.
    destruct (Hfail (fs s)) as [w' Hw']. rewrite Hw'. exists w'.
    unfold logged. cbn [log]. by rewrite <- !app_assoc.
  - cbn [app copy_pages]. rewrite fs_logged.
    destruct (Hcopy k (fs s)) as [w Hw]; [by left|]. rewrite Hw.
    destruct (IH (logged (CallCopy k mandir) w
                    (logged (InstallPrint ("installing " +:+ k)) (fs s) s)))
      as [w' Hw']; [|done|].
    { intros k0 w0 Hk. apply Hcopy. by right. }
    exists w'. rewrite Hw', !log_logged, copy_events_cons.
    by rewrite <- !app_assoc.
Qed.

End InstallFacts.

Section InstallClaims.

Context {World : Type}.
Variable read_pyproject : result string.
Variable tomllib_loads : string → option (list (string * toml)).
Variable py_str : toml → string.
Variable attrs : list string.
Variable path_exists : string → World → bool.
Variable makedirs : string → World → result unit * World.
Variable copy : string → string → World → result unit * World.

#[local] Abbreviation install_with config_get :=
  (install_manual_pages World config_get read_pyproject tomllib_loads py_str
     attrs path_exists makedirs copy).

(** X22: with a value in [setup.cfg] that parses, a directory that is
    there or can be made, and copies that succeed, the installation ends
    well; it has tested the directory, made it only when it was not
    there, and then, for each output file once and in the order of the
    mapping, printed the notice and copied the file into the directory. *)
Theorem install_copies_each_file_once (text install_data : string)
    (data : Dict.t record) (s : install_state World) :
  let mandir := path_join install_data "share/man/man1" in
  parse_manpages_spec attrs text = Ok data →
  (∀ w, ∃ w', makedirs mandir w = (Ok tt, w')) →
  (∀ key w, key ∈ Dict.keys data → ∃ w', copy key mandir w = (Ok tt, w')) →
  NoDup (Dict.keys data) ∧
  ∃ w',
    install_with (Found text) install_data s =
      (Ok tt,
       InstallState w'
         (log s ++ [CallExists mandir] ++
            (if path_exists mandir (fs s) then [] else [CallMakedirs mandir])
            ++ copy_events (Dict.keys data) mandir)).
Proof.
  intros mandir Hparse Hmk Hcopy. split.
  { by destruct (parse_specs_keys attrs _ _ _ Hparse (NoDup_nil_2)). }
  unfold install_manual_pages, find_spec.
  cbn [mbind result_bind]. rewrite Hparse. fold mandir.
  destruct (path_exists mandir (fs s)).
  - destruct (copy_pages_all copy (Dict.keys data) mandir
                (logged (CallExists mandir) (fs s) s) Hcopy) as [w' Hw'].
    exists w'. rewrite Hw', log_logged. by rewrite <- !app_assoc.
  - destruct (Hmk (fs s)) as [w Hw]. rewrite Hw.
    destruct (copy_pages_all copy (Dict.keys data) mandir
                (logged (CallMakedirs mandir) w
                   (logged (CallExists mandir) (fs s) s)) Hcopy)
      as [w' Hw'].
    exists w'. rewrite Hw', !log_logged. by rewrite <- !app_assoc.
Qed.

(** X23: only the missing section of [setup.cfg] sends the installation
    to [pyproject.toml]: with a value found there, or with another error
    of the look-up, it does not depend on that file. *)
Theorem only_missing_section_reads_pyproject (config_get : config_lookup)
    (read2 : result string)
    (loads2 : string → option (list (string * toml)))
    (str2 : toml → string) (install_data : string)
    (s : install_state World) :
  config_get ≠ NoSectionError →
  install_with config_get install_data s =
    install_manual_pages World config_get read2 loads2 str2 attrs
      path_exists makedirs copy install_data s.
Proof. intros Hcfg. unfold install_manual_pages, find_spec. by destruct config_get. Qed.

(** X24: with no section in [setup.cfg] and a [pyproject.toml] that is
    read but does not decode, or lacks [tool], or [build_manpages] in it,
    or [manpages] in that, the installation raises the [ValueError] that
    the configuration was not found, before it has touched the file
    system. *)
Theorem install_without_spec (text install_data : string)
    (content : list (string * toml)) (s : install_state World) :
  read_pyproject = Ok text →
  tomllib_loads text = None ∨
  (tomllib_loads text = Some content ∧
   (Dict.get "tool" content = None ∨
    ∃ tool, Dict.get "tool" content = Some (TTable tool) ∧
      (Dict.get DEFAULT_CMD_NAME tool = None ∨
       ∃ cmd, Dict.get DEFAULT_CMD_NAME tool = Some (TTable cmd) ∧
              Dict.get "manpages" cmd = None))) →
  install_with NoSectionError install_data s =
    (Raise
       (ValueError
          "'manpage' configuration not found in setup.cfg or pyproject.toml"),
     s).
Proof.
  intros Hread Hcase.
  assert (get_pyproject_settings read_pyproject tomllib_loads py_str
          = Ok None) as Hnone.
  { destruct Hcase as [Hl|[Hl Hpath]].
    - by eapply pyproject_undecodable.
    - by eapply pyproject_key_missing. }
  unfold install_manual_pages, find_spec. by rewrite Hnone.
Qed.

(** X25: a text that does not parse ends the installation with the error
    of the parser, before the directory is tested or made. *)
Theorem bad_spec_installs_nothing (text install_data : string) (e : exn)
    (s : install_state World) :
  parse_manpages_spec attrs text = Raise e →
  install_with (Found text) install_data s = (Raise e, s).
Proof.
  intros Hparse. unfold install_manual_pages, find_spec.
  cbn [mbind result_bind]. by rewrite Hparse.
Qed.

(** X26: the first copy that fails ends the installation with its error:
    the files before it are copied, the files after it get neither a
    notice nor a copy. *)
Theorem failed_copy_stops_install (text install_data : string)
    (data : Dict.t record) (before after : list string) (key : string)
    (e : exn) (s : install_state World) :
  let mandir := path_join install_data "share/man/man1" in
  parse_manpages_spec attrs text = Ok data →
  Dict.keys data = before ++ key :: after →
  path_exists mandir (fs s) = true →
  (∀ k w, k ∈ before → ∃ w', copy k mandir w = (Ok tt, w')) →
  (∀ w, ∃ w', copy key mandir w = (Raise e, w')) →
  ∃ w',
    install_with (Found text) install_data s =
      (Raise e,
       InstallState w'
         (log s ++ [CallExists mandir] ++ copy_events before mandir ++
            [InstallPrint ("installing " +:+ key); CallCopy key mandir])).
Proof.
  intros mandir Hparse Hkeys Hex Hcopy Hfail.
  unfold install_manual_pages, find_spec.
  cbn [mbind result_bind]. rewrite Hparse. fold mandir. rewrite Hex, Hkeys.
  destruct (copy_pages_until copy before after key mandir e
              (logged (CallExists mandir) (fs s) s) Hcopy Hfail)
    as [w' Hw'].
  exists w'. rewrite Hw', log_logged. by rewrite <- !app_assoc.
Qed.

(** X27: a value in [setup.cfg] that is empty or whitespace is not
    refused at installation: it parses to the one output file [""], and
    the installation goes on to copy that file. *)
Theorem empty_value_installs_empty_name (ws install_data : string)
    (e : exn) (w : World) (s : install_state World) :
  let mandir := path_join install_data "share/man/man1" in
  all_space ws = true →
  path_exists mandir (fs s) = true →
  copy "" mandir (fs s) = (Raise e, w) →
  install_with (Found ws) install_data s =
    (Raise e,
     InstallState w
       (log s ++ [CallExists mandir; InstallPrint "installing ";
                  CallCopy "" mandir])).
Proof.
  intros mandir Hws Hex Hcopy.
  assert (parse_manpages_spec attrs ws = Ok [("", ∅)]) as Hparse.
  { unfold parse_manpages_spec, Str.strip.
    by rewrite lstrip_all_space. }
  unfold install_manual_pages, find_spec.
  cbn [mbind result_bind]. rewrite Hparse. fold mandir. rewrite Hex.
  change (Dict.keys [("", ∅ : record)]) with [""].
  cbn [copy_pages]. rewrite !fs_logged, Hcopy.
  unfold logged. cbn [log]. by rewrite <- !app_assoc.
Qed.

End InstallClaims.

Lemma install_copies_each_file_once_witness :
  let text := "a.1:module=x" +:+ Str.NL +:+ "b.1:module=y" +:+ Str.NL
              +:+ "a.1:module=z" in
  ∃ w',
    ToyInstall.install (Found text) (Raise (OSError "no file")) (λ _, None)
      "/usr" (InstallState [] []) =
      (Ok tt,
       InstallState w'
         [CallExists "/usr/share/man/man1";
          CallMakedirs "/usr/share/man/man1";
          InstallPrint "installing a.1";
          CallCopy "a.1" "/usr/share/man/man1";
          InstallPrint "installing b.1";
          CallCopy "b.1" "/usr/share/man/man1"]).
Proof.
  intros text.
  destruct (install_copies_each_file_once (Raise (OSError "no file"))
              (λ _, None) (λ _, "") [] ToyInstall.path_exists
              ToyInstall.makedirs ToyInstall.copy text "/usr"
              [("a.1", {[ "import_type" := VStr "module";
                          "import_from" := VStr "z" ]});
               ("b.1", {[ "import_type" := VStr "module";
                          "import_from" := VStr "y" ]})]
              (InstallState [] []))
    as [_ [w' Hw']].
  - reflexivity.
  - intros w. by eexists.
  - intros key w Hkey. unfold ToyInstall.copy.
    assert (String.eqb key "" = false) as ->; [|by eexists].
    apply String.eqb_neq. intros ->.
    change (Dict.keys _) with ["a.1"; "b.1"] in Hkey.
    rewrite !elem_of_cons, elem_of_nil in Hkey.
    by destruct Hkey as [?|[?|[]]].
  - exists w'. exact Hw'.
Defined.

Lemma only_missing_section_reads_pyproject_witness :
  ToyInstall.install (Found "a.1") (Raise (OSError "no file")) (λ _, None)
    "/usr" (InstallState [] []) =
  ToyInstall.install (Found "a.1") (Ok "") (λ _, Some []) "/usr"
    (InstallState [] []).
Proof.
  apply (only_missing_section_reads_pyproject (Raise (OSError "no file"))
           (λ _, None) (λ _, "") [] ToyInstall.path_exists
           ToyInstall.makedirs ToyInstall.copy (Found "a.1") (Ok "")
           (λ _, Some []) (λ _, "") "/usr" (InstallState [] [])).
  done.
Defined.

Lemma install_without_spec_witness :
  ToyInstall.install NoSectionError (Ok "[project]")
    (λ _, Some [("project", TTable [])]) "/usr" (InstallState [] []) =
    (Raise
       (ValueError
          "'manpage' configuration not found in setup.cfg or pyproject.toml"),
     InstallState [] []).
Proof.
  apply (install_without_spec (Ok "[project]")
           (λ _, Some [("project", TTable [])]) (λ _, "") []
           ToyInstall.path_exists ToyInstall.makedirs ToyInstall.copy
           "[project]" "/usr" [("project", TTable [])] (InstallState [] [])).
  - reflexivity.
  - right. split; [reflexivity|]. by left.
Defined.

Lemma bad_spec_installs_nothing_witness :
  ToyInstall.install (Found "a.1:colour=red") (Ok "") (λ _, None) "/usr"
    (InstallState [] []) =
    (Raise (ValueError "Unknown manpage configuration option: colour"),
     InstallState [] []).
Proof.
  apply (bad_spec_installs_nothing (Ok "") (λ _, None) (λ _, "") []
           ToyInstall.path_exists ToyInstall.makedirs ToyInstall.copy
           "a.1:colour=red" "/usr").
  reflexivity.
Defined.

Lemma failed_copy_stops_install_witness :
  let text := "a.1" +:+ Str.NL +:+ Str.NL +:+ "c.1" in
  ∃ w',
    ToyInstall.install (Found text) (Ok "") (λ _, None) "/usr"
      (InstallState ["/usr/share/man/man1"] []) =
      (Raise (OSError "No such file or directory"),
       InstallState w'
         [CallExists "/usr/share/man/man1";
          InstallPrint "installing a.1";
          CallCopy "a.1" "/usr/share/man/man1";
          InstallPrint "installing ";
          CallCopy "" "/usr/share/man/man1"]).
Proof.
  intros text.
  destruct (failed_copy_stops_install (Ok "") (λ _, None) (λ _, "") []
              ToyInstall.path_exists ToyInstall.makedirs ToyInstall.copy
              text "/usr" [("a.1", ∅); ("", ∅); ("c.1", ∅)] ["a.1"] ["c.1"]
              "" (OSError "No such file or directory")
              (InstallState ["/usr/share/man/man1"] []))
    as [w' Hw'].
  - reflexivity.
  - reflexivity.
  - reflexivity.
  - intros k w Hk. apply list_elem_of_singleton in Hk as ->. by eexists.
  - intros w. by eexists.
  - exists w'. exact Hw'.
Defined.

Lemma empty_value_installs_empty_name_witness :
  ToyInstall.install (Found "") (Ok "") (λ _, None) "/usr"
    (InstallState ["/usr/share/man/man1"] []) =
    (Raise (OSError "No such file or directory"),
     InstallState ["/usr/share/man/man1"]
       [CallExists "/usr/share/man/man1"; InstallPrint "installing ";
        CallCopy "" "/usr/share/man/man1"]).
Proof.
  apply (empty_value_installs_empty_name (Ok "") (λ _, None) (λ _, "") []
           ToyInstall.path_exists ToyInstall.makedirs ToyInstall.copy
           "" "/usr" (OSError "No such file or directory")
           ["/usr/share/man/man1"]
           (InstallState ["/usr/share/man/man1"] []));
    reflexivity.
Defined.
